(** * Scholar downloader: a shallow embedding of [app.py]

    The development follows the layout of the Flask backend:
    utility functions ([sanitize], [build_scholar_url],
    [resolve_pdf_url]), the scraper core ([scrape_scholar]) and the three
    routes ([search], [download_single], [download_zip]).

    Texts (Python [str]) are modelled as [string]: sequences of the
    8-bit code points U+0000..U+00FF, on which the character classes of
    Python ([str.isspace], [str.lower], the [re] classes) are
    written out in full.  Byte strings (Python [bytes]) are [list byte].
    Integers are [Z]. *)

From Stdlib Require Import ZArith List Strings.String Strings.Ascii Strings.Byte Bool Lia.
From Stdlib Require Import DecimalString DecimalPos DecimalZ.
Import ListNotations.

Local Open Scope string_scope.
Local Open Scope Z_scope.

(* ================================================================== *)
(** * Part I: definitions                                              *)
(* ================================================================== *)

(** ** Python built-ins on [str] *)

Module Py.

Definition code (c : ascii) : N := N_of_ascii c.

Definition in_range (lo hi : N) (c : ascii) : bool :=
  (N.leb lo (code c) && N.leb (code c) hi)%bool.

(** [str.isspace] on one character: U+0009..U+000D, U+001C..U+001F,
    U+0020, U+0085 and U+00A0. *)
Definition isspace (c : ascii) : bool :=
  (in_range 9 13 c || in_range 28 31 c || N.eqb (code c) 32
   || N.eqb (code c) 133 || N.eqb (code c) 160)%bool.

(** [str.lower] on one character: A..Z, and the capital letters
    U+00C0..U+00DE except the multiplication sign U+00D7. *)
Definition lower_char (c : ascii) : ascii :=
  if (in_range 65 90 c
      || (in_range 192 222 c && negb (N.eqb (code c) 215)))%bool
  then ascii_of_N (code c + 32) else c.

Fixpoint map (f : ascii -> ascii) (s : string) : string :=
  match s with
  | EmptyString => EmptyString
  | String c s' => String (f c) (map f s')
  end.

Fixpoint filter (p : ascii -> bool) (s : string) : string :=
  match s with
  | EmptyString => EmptyString
  | String c s' => if p c then String c (filter p s') else filter p s'
  end.

Fixpoint all_chars (p : ascii -> bool) (s : string) : bool :=
  match s with
  | EmptyString => true
  | String c s' => (p c && all_chars p s')%bool
  end.

Definition lower (s : string) : string := map lower_char s.

(** [s[:n]] for a literal [n >= 0]. *)
Fixpoint take (n : nat) (s : string) : string :=
  match n, s with
  | S n', String c s' => String c (take n' s')
  | _, _ => EmptyString
  end.

Fixpoint lstrip (s : string) : string :=
  match s with
  | String c s' => if isspace c then lstrip s' else s
  | EmptyString => EmptyString
  end.

Fixpoint rstrip (s : string) : string :=
  match s with
  | EmptyString => EmptyString
  | String c s' =>
      match rstrip s' with
      | EmptyString => if isspace c then EmptyString else String c EmptyString
      | r => String c r
      end
  end.

(** [s.strip()]: whitespace removed at both ends. *)
Definition strip (s : string) : string := rstrip (lstrip s).

(** [s.replace(a, b)] for one-character [a] and [b]. *)
Definition replace (a b : ascii) (s : string) : string :=
  map (fun c => if Ascii.eqb c a then b else c) s.

(** [s.startswith(p)] *)
Definition startswith (p s : string) : bool := String.prefix p s.

(** [p in s] *)
Fixpoint contains (p s : string) : bool :=
  (String.prefix p s
   || match s with
      | EmptyString => false
      | String _ s' => contains p s'
      end)%bool.

(** Truth value of a text: [bool(s)]. *)
Definition nonempty (s : string) : bool :=
  match s with EmptyString => false | String _ _ => true end.

(** Truth value of an optional text: [None] and the empty text are
    false. *)
Definition truthy (o : option string) : bool :=
  match o with Some s => nonempty s | None => false end.

(** [l[:n]] on a list, for any integer [n]: a negative [n] counts from
    the end. *)
Definition slice_to {A} (l : list A) (n : Z) : list A :=
  if 0 <=? n then firstn (Z.to_nat n) l
  else firstn (Z.to_nat (Z.of_nat (List.length l) + n)) l.

(** [range(n)] *)
Definition range (n : Z) : list Z :=
  List.map Z.of_nat (seq 0 (Z.to_nat n)).

(** [str(n)] for an integer. *)
Definition str_of_Z (n : Z) : string := NilZero.string_of_int (Z.to_int n).

(** [sep.join(parts)] *)
Fixpoint join (sep : string) (parts : list string) : string :=
  match parts with
  | [] => EmptyString
  | [p] => p
  | p :: ps => p ++ sep ++ join sep ps
  end.

(** [s * n] *)
Fixpoint repeat (s : string) (n : nat) : string :=
  match n with
  | O => EmptyString
  | S n' => s ++ repeat s n'
  end.

(** First character of a text is whitespace. *)
Definition starts_with_space (s : string) : bool :=
  match s with
  | EmptyString => false
  | String c _ => isspace c
  end.

(** Last character of a text is whitespace. *)
Fixpoint ends_with_space (s : string) : bool :=
  match s with
  | EmptyString => false
  | String c EmptyString => isspace c
  | String _ s' => ends_with_space s'
  end.

End Py.

(** ** Utility functions *)

(** The nine characters of the class in the pattern of [sanitize]:
    less-than, greater-than, colon, double quote (code 34), slash,
    backslash, bar, question mark and star. *)
Definition forbidden_chars : list ascii :=
  ["<"; ">"; ":"; "034"; "/"; "\"; "|"; "?"; "*"]%char.

Definition forbidden (c : ascii) : bool :=
  existsb (Ascii.eqb c) forbidden_chars.

(** [re.sub] of that class by the empty text: every character of the
    class is deleted. *)
Definition re_sub_forbidden (name : string) : string :=
  Py.filter (fun c => negb (forbidden c)) name.

(** A character outside the class, and a character other than the
    space: what [sanitize] leaves in its result. *)
Definition clean (c : ascii) : bool := negb (forbidden c).
Definition unspaced (c : ascii) : bool := negb (Ascii.eqb c " ").

(** [sanitize]: safe filename from title. *)
Definition sanitize (name : string) : string :=
  let name := re_sub_forbidden name in
  Py.take 150 (Py.replace " " "_" (Py.strip name)).

(** [urllib.parse.quote_plus] and [urllib.parse.urlencode] on texts:
    unreserved characters are kept, a space becomes a plus sign, every
    other character is percent-encoded from its UTF-8 bytes. *)
Module Url.

Definition always_safe (c : ascii) : bool :=
  (Py.in_range 65 90 c || Py.in_range 97 122 c || Py.in_range 48 57 c
   || existsb (Ascii.eqb c) ["_"; "."; "-"; "~"]%char)%bool.

Definition hex_digit (n : N) : ascii :=
  nth (N.to_nat n) (list_ascii_of_string "0123456789ABCDEF") "0"%char.

Definition percent (b : N) : string :=
  String "%" (String (hex_digit (b / 16)) (String (hex_digit (b mod 16)) EmptyString)).

Definition utf8 (c : ascii) : list N :=
  let n := Py.code c in
  if N.ltb n 128 then [n] else [192 + n / 64; 128 + n mod 64]%N.

Definition quote_plus_char (c : ascii) : string :=
  if always_safe c then String c EmptyString
  else if Ascii.eqb c " " then "+"
  else String.concat EmptyString (List.map percent (utf8 c)).

Fixpoint quote_plus (s : string) : string :=
  match s with
  | EmptyString => EmptyString
  | String c s' => quote_plus_char c ++ quote_plus s'
  end.

Definition urlencode (params : list (string * string)) : string :=
  Py.join "&"
    (List.map (fun kv => quote_plus (fst kv) ++ "=" ++ quote_plus (snd kv)) params).

End Url.

Definition build_scholar_url (topic : string) (start : Z) : string :=
  let base := "https://scholar.google.com/scholar" in
  let params := [("q", topic); ("start", Py.str_of_Z start);
                 ("hl", "en"); ("as_sdt", "0,5")] in
  base ++ "?" ++ Url.urlencode params.

(** ** Paper records

    A paper is a Python dict.  A field is [None] when the key is missing;
    for the link fields [None] also stands for the value [None].  The text
    fields of a record are texts whenever they are present. *)
Record paper := {
  title : option string;
  authors : option string;
  year : option string;
  abstract : option string;
  pdf_link : option string;
  source_url : option string;
  download_url : option string;
  has_pdf : option bool
}.

Definition get_default (o : option string) (d : string) : string :=
  match o with Some v => v | None => d end.

Definition resolve_pdf_url (paper : paper) : option string :=
  let url := pdf_link paper in
  if Py.truthy url then
    let url := get_default url EmptyString in
    if Py.startswith "//" url then Some ("https:" ++ url)
    else if Py.startswith "/" url then Some ("https://scholar.google.com" ++ url)
    else Some url
  else if (Py.truthy (source_url paper)
           && Py.contains ".pdf" (Py.lower (get_default (source_url paper) EmptyString)))%bool
  then source_url paper
  else None.

(** ** Regular expressions

    The fragment of [re] that the year pattern uses, with a backtracking
    matcher.  A cursor is the character before the position ([None] at
    the start of the text) and the rest of the text. *)
Module Re.

Inductive regex :=
| Chr (c : ascii)
| Cls (p : ascii -> bool)
| Seq (r1 r2 : regex)
| Alt (r1 r2 : regex)
| WordB.

(** The class of decimal digits, [\d]. *)
Definition is_digit (c : ascii) : bool := Py.in_range 48 57 c.

(** The class of word characters, [\w]: alphanumerics and underscore. *)
Definition is_word (c : ascii) : bool :=
  (is_digit c || Py.in_range 65 90 c || Py.in_range 97 122 c
   || N.eqb (Py.code c) 95
   || N.eqb (Py.code c) 170 || N.eqb (Py.code c) 178
   || N.eqb (Py.code c) 179 || N.eqb (Py.code c) 181
   || N.eqb (Py.code c) 185 || N.eqb (Py.code c) 186
   || Py.in_range 188 190 c || Py.in_range 192 214 c
   || Py.in_range 216 246 c || Py.in_range 248 255 c)%bool.

Definition is_word_opt (o : option ascii) : bool :=
  match o with Some c => is_word c | None => false end.

Definition next_char (s : string) : option ascii :=
  match s with String c _ => Some c | EmptyString => None end.

Fixpoint run {A} (r : regex) (prev : option ascii) (rest : string)
    (matched : string) (k : option ascii -> string -> string -> option A)
    : option A :=
  match r with
  | Chr c =>
      match rest with
      | String d rest' =>
          if Ascii.eqb c d
          then k (Some d) rest' (matched ++ String d EmptyString) else None
      | EmptyString => None
      end
  | Cls p =>
      match rest with
      | String d rest' =>
          if p d
          then k (Some d) rest' (matched ++ String d EmptyString) else None
      | EmptyString => None
      end
  | Seq r1 r2 =>
      run r1 prev rest matched
        (fun prev' rest' matched' => run r2 prev' rest' matched' k)
  | Alt r1 r2 =>
      match run r1 prev rest matched k with
      | Some m => Some m
      | None => run r2 prev rest matched k
      end
  | WordB =>
      if xorb (is_word_opt prev) (is_word_opt (next_char rest))
      then k prev rest matched else None
  end.

(** The match that starts at the cursor, as its text ([group()]). *)
Definition match_here (r : regex) (prev : option ascii) (s : string)
    : option string :=
  run r prev s EmptyString (fun _ _ matched => Some matched).

Fixpoint search_from (r : regex) (prev : option ascii) (s : string)
    : option string :=
  match match_here r prev s with
  | Some m => Some m
  | None =>
      match s with
      | EmptyString => None
      | String c s' => search_from r (Some c) s'
      end
  end.

(** [re.search(r, s)]: the match at the leftmost position that has one. *)
Definition search (r : regex) (s : string) : option string :=
  search_from r None s.

End Re.

(** The pattern [\b(19|20)\d{2}\b]. *)
Definition year_pattern : Re.regex :=
  Re.Seq Re.WordB
    (Re.Seq (Re.Alt (Re.Seq (Re.Chr "1") (Re.Chr "9"))
                    (Re.Seq (Re.Chr "2") (Re.Chr "0")))
       (Re.Seq (Re.Seq (Re.Cls Re.is_digit) (Re.Cls Re.is_digit)) Re.WordB)).

(** ** Result blocks

    A result block is a subtree of the parsed page.  It is modelled by
    what the extractor asks of it: the heading [h3.gs_rt] (its text and
    the [href] of its first anchor that has one), the text of the byline
    [div.gs_a], the text of the snippet [div.gs_rs], and the [href] of the
    anchor whose text matches the PDF marker. *)
Record title_tag := { tt_text : string; tt_href : option string }.

Record result_item := {
  item_title : option title_tag;
  item_info : option string;
  item_abs : option string;
  item_pdf : option string
}.

Definition is_some {A} (o : option A) : bool :=
  match o with Some _ => true | None => false end.

(** The body of the loop over the result blocks of a page in
    [scrape_scholar]. *)
Definition extract_paper (item : result_item) : paper :=
  let title_tag := item_title item in
  let title := match title_tag with Some t => tt_text t | None => "Untitled" end in
  let info_tag := item_info item in
  let authors := match info_tag with Some t => t | None => "Unknown" end in
  let year_match := Re.search year_pattern authors in
  let year := match year_match with Some m => m | None => "N/A" end in
  let abs_tag := item_abs item in
  let abstract := match abs_tag with Some t => t | None => EmptyString end in
  let pdf_link := item_pdf item in
  let source_url :=
    match title_tag with Some t => tt_href t | None => None end in
  let paper :=
    {| title := Some title; authors := Some authors; year := Some year;
       abstract := Some abstract; pdf_link := pdf_link;
       source_url := source_url; download_url := None; has_pdf := None |} in
  let download_url := resolve_pdf_url paper in
  {| title := Some title; authors := Some authors; year := Some year;
     abstract := Some abstract; pdf_link := pdf_link;
     source_url := source_url; download_url := download_url;
     has_pdf := Some (is_some download_url) |}.

(** The year of a byline, as the spec words it: a token at index [i] is
    four characters, [19] or [20] followed by two digits, with no word
    character next to it on either side.  [prev] is the character that
    stands before the text, if there is one. *)
Definition char_before (prev : option ascii) (s : string) (i : nat)
    : option ascii :=
  match i with O => prev | S j => String.get j s end.

Definition year_token_after (prev : option ascii) (s : string) (i : nat)
    : bool :=
  match String.get i s, String.get (i + 1) s,
        String.get (i + 2) s, String.get (i + 3) s with
  | Some a, Some b, Some c, Some d =>
      (((Ascii.eqb a "1" && Ascii.eqb b "9") || (Ascii.eqb a "2" && Ascii.eqb b "0"))
       && Re.is_digit c && Re.is_digit d
       && negb (Re.is_word_opt (char_before prev s i))
       && negb (Re.is_word_opt (String.get (i + 4) s)))%bool
  | _, _, _, _ => false
  end.

Definition year_token_at (s : string) (i : nat) : bool :=
  year_token_after None s i.

(** ** The outside world

    [requests.get(url, headers=HEADERS, timeout=t)] followed by
    [raise_for_status()] either raises ([inl], with the text of the
    exception) or yields a response; the answer may depend on everything
    that was requested before, which the world state carries.
    The constant [HEADERS] go with every request and are left out.
    [find_results] is the parser: the result blocks that [find_all]
    yields for [div.gs_r] on a page text. *)
Record response := { resp_text : string; resp_content : list byte }.

Class Upstream := {
  World : Type;
  requests_get : string -> Z -> World -> (string + response) * World;
  find_results : string -> list result_item
}.

(** What a run does to the outside, in order. *)
Inductive event :=
| Get (url : string) (timeout : Z)
| Sleep (seconds : Z).

Definition IO `{Upstream} (A : Type) : Type := World -> A * World * list event.

Definition ret `{Upstream} {A} (x : A) : IO A := fun w => (x, w, []).

Definition bind `{Upstream} {A B} (m : IO A) (f : A -> IO B) : IO B :=
  fun w =>
    let '(a, w1, t1) := m w in
    let '(b, w2, t2) := f a w1 in
    (b, w2, (t1 ++ t2)%list).

Notation "x <- m ;; k" := (bind m (fun x => k))
  (at level 61, m at next level, right associativity).
Notation "m ;; k" := (bind m (fun _ => k))
  (at level 61, right associativity).

Definition http_get `{Upstream} (url : string) (timeout : Z)
    : IO (string + response) :=
  fun w => let (r, w') := requests_get url timeout w in (r, w', [Get url timeout]).

Definition sleep `{Upstream} (seconds : Z) : IO unit :=
  fun w => (tt, w, [Sleep seconds]).

Definition value `{Upstream} {A} (r : A * World * list event) : A := fst (fst r).
Definition trace `{Upstream} {A} (r : A * World * list event) : list event := snd r.

(** ** Configuration *)
Definition REQUEST_DELAY : Z := 2.
Definition MAX_RESULTS : Z := 30.

(** ** Scraper core *)
Section Scraper.
Context `{Upstream}.

(** The loop [for page_idx in range(pages_needed)] of [scrape_scholar];
    each [break] returns the papers gathered so far. *)
Fixpoint scrape_pages (topic : string) (num_results : Z)
    (pages : list Z) (all_papers : list paper) : IO (list paper) :=
  match pages with
  | [] => ret all_papers
  | page_idx :: pages' =>
      let offset := page_idx * 10 in
      let url := build_scholar_url topic offset in
      r <- http_get url 15 ;;
      match r with
      | inl _ => ret all_papers
      | inr resp =>
          let results := find_results (resp_text resp) in
          match results with
          | [] => ret all_papers
          | _ =>
              let all_papers := (all_papers ++ List.map extract_paper results)%list in
              if Z.of_nat (List.length all_papers) >=? num_results
              then ret all_papers
              else sleep REQUEST_DELAY ;;
                   scrape_pages topic num_results pages' all_papers
          end
      end
  end.

Definition scrape_scholar (topic : string) (num_results : Z)
    : IO (list paper) :=
  let pages_needed := num_results / 10 + 1 in
  all_papers <- scrape_pages topic num_results (Py.range pages_needed) [] ;;
  ret (Py.slice_to all_papers num_results).

End Scraper.

(** ** API routes *)

(** The data of an archive entry: raw bytes, or a text (which the
    archive stores encoded). *)
Inductive zip_data :=
| ZBytes (content : list byte)
| ZText (text : string).

(** What a route answers.  [InternalServerError] is the answer of the
    framework (status 500) when an exception leaves the route. *)
Inductive api_response :=
| JsonError (status : Z) (error : string)
| JsonNoResults (error : string)
| JsonPapers (papers : list paper) (count : Z) (topic : string)
| PdfAttachment (content : list byte) (filename : string)
| ZipAttachment (entries : list (string * zip_data)) (filename : string)
| InternalServerError.

(** The header check of [Response]: a header value with a carriage
    return or a line feed is refused with a [ValueError] of this text.
    The header here is the attachment line around the file name, so the
    test is on the file name. *)
Definition is_newline (c : ascii) : bool :=
  (N.eqb (Py.code c) 10 || N.eqb (Py.code c) 13)%bool.

Fixpoint has_newline (s : string) : bool :=
  match s with
  | EmptyString => false
  | String c s' => (is_newline c || has_newline s')%bool
  end.

Definition header_error : string :=
  "Header values must not contain newline characters.".

(** The name under which [zf.writestr] stores an entry: the archive
    library ends a name at its first NUL character.  With an empty name
    [writestr] raises (an [IndexError], as in the library of Python 3.11). *)
Fixpoint zip_name (filename : string) : string :=
  match filename with
  | EmptyString => EmptyString
  | String c s' =>
      if N.eqb (Py.code c) 0 then EmptyString else String c (zip_name s')
  end.

(** The magic bytes of a PDF. *)
Definition pdf_magic : list byte := [x25; x50; x44; x46].

Definition is_pdf (content : list byte) : bool :=
  if list_eq_dec Byte.byte_eq_dec (firstn 4 content) pdf_magic then true else false.

(** The local state of the loop of [download_zip]. *)
Record zip_state := {
  entries : list (string * zip_data);
  downloaded : Z;
  metadata_lines : list string
}.

(** The report block of paper [i] (counted from 0): the six lines that
    [download_zip] appends for it. *)
Definition report_block (i : Z) (paper : paper) : list string :=
  let url := download_url paper in
  let title := get_default (title paper) ("paper_" ++ Py.str_of_Z (i + 1)) in
  [ "[" ++ Py.str_of_Z (i + 1) ++ "] " ++ title;
    "    Authors  : " ++ get_default (authors paper) "N/A";
    "    Year     : " ++ get_default (year paper) "N/A";
    "    Abstract : " ++ Py.take 200 (get_default (abstract paper) "N/A");
    "    PDF URL  : " ++ (if Py.truthy url then get_default url EmptyString else "N/A");
    EmptyString ].

Definition nl : string := String (ascii_of_nat 10) EmptyString.

Section Routes.
Context `{Upstream}.

Definition search (topic : option string) (num_results : option Z)
    : IO api_response :=
  let topic := Py.strip (get_default topic "KNN nanorods") in
  let num := Z.min (match num_results with Some n => n | None => 10 end)
                   MAX_RESULTS in
  if negb (Py.nonempty topic) then ret (JsonError 400 "Topic is required")
  else
    papers <- scrape_scholar topic num ;;
    match papers with
    | [] =>
        ret (JsonNoResults
               "No results returned. Google Scholar may be blocking automated requests. See README for solutions.")
    | _ => ret (JsonPapers papers (Z.of_nat (List.length papers)) topic)
    end.

Definition download_single (url title : option string) : IO api_response :=
  let title := get_default title "paper" in
  if negb (Py.truthy url) then ret (JsonError 400 "URL is required")
  else
    r <- http_get (get_default url EmptyString) 30 ;;
    match r with
    | inl e => ret (JsonError 500 ("Download failed: " ++ e))
    | inr resp =>
        let content := resp_content resp in
        if negb (is_pdf content)
        then ret (JsonError 400 "The URL does not serve a valid PDF file.")
        else
          let filename := sanitize title ++ ".pdf" in
          if has_newline filename
          then ret (JsonError 500 ("Download failed: " ++ header_error))
          else ret (PdfAttachment content filename)
    end.

(** One turn of the loop [for i, paper in enumerate(papers)] of
    [download_zip]; each [continue] returns the state as it is, also the
    one of the [except] clause when the request or [writestr] raises. *)
Definition zip_step (i : Z) (paper : paper) (st : zip_state)
    : IO zip_state :=
  let url := download_url paper in
  let title := get_default (title paper) ("paper_" ++ Py.str_of_Z (i + 1)) in
  let st := {| entries := entries st; downloaded := downloaded st;
               metadata_lines := (metadata_lines st ++ report_block i paper)%list |} in
  if negb (Py.truthy url) then ret st
  else
    r <- http_get (get_default url EmptyString) 30 ;;
    match r with
    | inl _ => ret st
    | inr resp =>
        if negb (is_pdf (resp_content resp)) then ret st
        else
          let filename := sanitize title ++ ".pdf" in
          if negb (Py.nonempty (zip_name filename)) then ret st
          else
            let st := {| entries := (entries st
                                     ++ [(zip_name filename,
                                          ZBytes (resp_content resp))])%list;
                         downloaded := downloaded st + 1;
                         metadata_lines := metadata_lines st |} in
            sleep 1 ;;
            ret st
    end.

Fixpoint zip_loop (i : Z) (papers : list paper) (st : zip_state)
    : IO zip_state :=
  match papers with
  | [] => ret st
  | paper :: papers' =>
      st' <- zip_step i paper st ;;
      zip_loop (i + 1) papers' st'
  end.

Definition metadata_text (topic : string) (papers : list paper)
    (st : zip_state) : string :=
  "Research Paper Download Report" ++ nl
  ++ "Topic : " ++ topic ++ nl
  ++ "Papers: " ++ Py.str_of_Z (Z.of_nat (List.length papers)) ++ nl
  ++ "Downloaded PDFs: " ++ Py.str_of_Z (downloaded st) ++ nl
  ++ Py.repeat "=" 60 ++ nl ++ nl
  ++ Py.join nl (metadata_lines st).

Definition download_zip (papers : list paper) (topic : option string)
    : IO api_response :=
  let topic := get_default topic "research_papers" in
  match papers with
  | [] => ret (JsonError 400 "No papers provided")
  | _ =>
      let st := {| entries := []; downloaded := 0; metadata_lines := [] |} in
      st <- zip_loop 0 papers st ;;
      let st := {| entries := (entries st
                     ++ [("metadata_report.txt", ZText (metadata_text topic papers st))])%list;
                   downloaded := downloaded st;
                   metadata_lines := metadata_lines st |} in
      let zip_filename := sanitize topic ++ "_papers.zip" in
      if has_newline zip_filename then ret InternalServerError
      else ret (ZipAttachment (entries st) zip_filename)
  end.

End Routes.

(** An archive entry that holds a PDF: raw bytes that start with the
    magic bytes. *)
Definition is_pdf_entry (e : string * zip_data) : bool :=
  match snd e with
  | ZBytes content => is_pdf content
  | ZText _ => false
  end.

Definition zip_init : zip_state :=
  {| entries := []; downloaded := 0; metadata_lines := [] |}.

(** A trace in which a delay of one unit follows every download
    request at once. *)
Fixpoint throttled (t : list event) : bool :=
  match t with
  | [] => true
  | Get _ _ :: t' =>
      match t' with
      | Sleep 1 :: _ => throttled t'
      | _ => false
      end
  | Sleep _ :: t' => throttled t'
  end.

(** The [papers] list of a JSON answer of [search]. *)
Definition papers_of (r : api_response) : list paper :=
  match r with
  | JsonPapers papers _ _ => papers
  | _ => []
  end.

(** [enumerate(l)] *)
Fixpoint enumerate_from {A} (i : Z) (l : list A) : list (Z * A) :=
  match l with
  | [] => []
  | x :: l' => (i, x) :: enumerate_from (i + 1) l'
  end.

Definition enumerate {A} (l : list A) : list (Z * A) := enumerate_from 0 l.

(** The resolver as the spec words it, a link being present when it is
    not [None]. *)
Definition resolve_spec (p : paper) : option string :=
  match pdf_link p with
  | Some link =>
      if Py.startswith "//" link then Some ("https:" ++ link)
      else if Py.startswith "/" link then Some ("https://scholar.google.com" ++ link)
      else Some link
  | None =>
      match source_url p with
      | Some src => if Py.contains ".pdf" (Py.lower src) then Some src else None
      | None => None
      end
  end.

Definition without_pdf_link (p : paper) : paper :=
  {| title := title p; authors := authors p; year := year p;
     abstract := abstract p; pdf_link := None; source_url := source_url p;
     download_url := download_url p; has_pdf := has_pdf p |}.

(** ** Sample upstreams and records *)

(** Every request fails. *)
Definition offline : Upstream :=
  {| World := unit;
     requests_get := fun _ _ w => (inl "unreachable", w);
     find_results := fun _ => [] |}.

Definition sample_item : result_item :=
  {| item_title := Some {| tt_text := "A paper"; tt_href := Some "http://x.com/p" |};
     item_info := Some "J. Smith - 2019 - Journal";
     item_abs := Some "We study things.";
     item_pdf := Some "//host/a.pdf" |}.

(** Every page has ten result blocks. *)
Definition ten_per_page : Upstream :=
  {| World := unit;
     requests_get := fun _ _ w => (inr {| resp_text := "page"; resp_content := [] |}, w);
     find_results := fun _ => List.repeat sample_item 10 |}.

Definition pdf_bytes : list byte := [x25; x50; x44; x46; x2d; x31].
Definition html_bytes : list byte := [x3c; x68; x74; x6d; x6c; x3e].

(** A host with one PDF, one page that is no PDF, and nothing else. *)
Definition file_host : Upstream :=
  {| World := unit;
     requests_get := fun url _ w =>
       if String.eqb url "http://h/a.pdf"
       then (inr {| resp_text := EmptyString; resp_content := pdf_bytes |}, w)
       else if String.eqb url "http://h/b.pdf"
       then (inr {| resp_text := "<html>"; resp_content := html_bytes |}, w)
       else (inl "404 Client Error", w);
     find_results := fun _ => [] |}.

Definition record (t : string) (url : option string) : paper :=
  {| title := Some t; authors := Some "J. Smith"; year := Some "2019";
     abstract := Some "We study things."; pdf_link := None;
     source_url := None; download_url := url; has_pdf := Some (is_some url) |}.

(** A record whose PDF link is the empty text. *)
Definition empty_link_record : paper :=
  {| title := None; authors := None; year := None; abstract := None;
     pdf_link := Some EmptyString; source_url := Some "http://x.com/a.pdf";
     download_url := None; has_pdf := None |}.

Definition failing_records : list paper :=
  [record "Not a PDF" (Some "http://h/b.pdf");
   record "Missing" (Some "http://h/c.pdf");
   record "Good one" (Some "http://h/a.pdf")].

Definition three_records : list paper :=
  [record "Good one" (Some "http://h/a.pdf");
   record "Not a PDF" (Some "http://h/b.pdf");
   record "No link" None].

(** A topic with a line feed inside. *)
Definition newline_topic : string :=
  String "a" (String (ascii_of_nat 10) "b").

(** A title of 149 letters, a tab and one more letter. *)
Definition tabbed_title : string :=
  Py.repeat "a" 149 ++ String (ascii_of_nat 9) "b".

(** ** Further definitions: observations on traces and records *)

(** The requests of a trace, in order, and its delays. *)
Fixpoint gets (t : list event) : list (string * Z) :=
  match t with
  | [] => []
  | Get url timeout :: t' => (url, timeout) :: gets t'
  | Sleep _ :: t' => gets t'
  end.

Fixpoint sleeps (t : list event) : list Z :=
  match t with
  | [] => []
  | Get _ _ :: t' => sleeps t'
  | Sleep seconds :: t' => seconds :: sleeps t'
  end.

(** A character that [sanitize] drops from either end: forbidden or
    whitespace. *)
Definition dropped (c : ascii) : bool := (forbidden c || Py.isspace c)%bool.

Definition set_pdf_link (link : option string) (p : paper) : paper :=
  {| title := title p; authors := authors p; year := year p;
     abstract := abstract p; pdf_link := link; source_url := source_url p;
     download_url := download_url p; has_pdf := has_pdf p |}.

Definition set_source_url (src : option string) (p : paper) : paper :=
  {| title := title p; authors := authors p; year := year p;
     abstract := abstract p; pdf_link := pdf_link p; source_url := src;
     download_url := download_url p; has_pdf := has_pdf p |}.

(** A year text: [19] or [20] and two digits, four characters in all. *)
Definition is_year_text (y : string) : bool :=
  match y with
  | String a (String b (String c (String d EmptyString))) =>
      (((Ascii.eqb a "1" && Ascii.eqb b "9") || (Ascii.eqb a "2" && Ascii.eqb b "0"))
       && Re.is_digit c && Re.is_digit d)%bool
  | _ => false
  end.

(** [k] full turns of the page loop of [scrape_scholar] from page [i]:
    the request for the page, then the delay. *)
Fixpoint page_rounds (topic : string) (i : Z) (k : nat) : list event :=
  match k with
  | O => []
  | S k' =>
      Get (build_scholar_url topic (i * 10)) 15
      :: Sleep REQUEST_DELAY :: page_rounds topic (i + 1) k'
  end.

(** The request that ends the loop early, if there is one. *)
Definition last_request (topic : string) (i : Z) (last : bool) : list event :=
  if last then [Get (build_scholar_url topic (i * 10)) 15] else [].

(** The URLs that [download_zip] asks for: the download URLs that are
    not empty, in the order of the records. *)
Definition wanted_urls (papers : list paper) : list string :=
  flat_map (fun p => if Py.truthy (download_url p)
                     then [get_default (download_url p) EmptyString] else [])
    papers.

(** A record with only the keys that [download_zip] reads. *)
Definition archive_view (p : paper) : paper :=
  {| title := title p; authors := authors p; year := year p;
     abstract := abstract p; pdf_link := None; source_url := None;
     download_url := download_url p; has_pdf := None |}.

(** The flag of a record is set and true. *)
Definition flagged (p : paper) : bool :=
  match has_pdf p with Some true => true | _ => false end.

Definition entry_named (name : string) (e : string * zip_data) : bool :=
  String.eqb (fst e) name.

(** An entry with the name of a PDF: a sanitized title and the
    extension. *)
Definition pdf_named (e : string * zip_data) : Prop :=
  exists t, fst e = (sanitize t ++ ".pdf")%string.

(** A text without a NUL character, and a paper whose title, if it has
    one, is such a text. *)
Definition no_nul (s : string) : bool :=
  Py.all_chars (fun c => negb (N.eqb (Py.code c) 0)) s.

Definition title_no_nul (p : paper) : bool :=
  match title p with Some t => no_nul t | None => true end.

(** The titles from which [download_zip] names the entries of a list of
    papers: the title of a paper, or the default with a number. *)
Definition entry_title (papers : list paper) (t : string) : Prop :=
  (exists p, In p papers /\ title p = Some t)
  \/ (exists k, t = ("paper_" ++ Py.str_of_Z k)%string).

(** The number of PDF entries of an archive answer. *)
Definition pdf_count (r : api_response) : nat :=
  match r with
  | ZipAttachment archive _ => List.length (List.filter is_pdf_entry archive)
  | _ => O
  end.

Fixpoint last_char (s : string) : option ascii :=
  match s with
  | EmptyString => None
  | String c EmptyString => Some c
  | String _ s' => last_char s'
  end.

(** A character that can stand in an encoded query value. *)
Definition url_char (c : ascii) : bool :=
  (Url.always_safe c || Ascii.eqb c "+" || Ascii.eqb c "%")%bool.

(** The value of a hexadecimal digit (capital letters). *)
Definition hex_value (c : ascii) : N :=
  if Py.in_range 48 57 c then Py.code c - 48 else Py.code c - 55.

(** Reading back the first character of an encoded text, the inverse of
    [Url.quote_plus_char]; the separator of parameters and the end of the
    text read as nothing. *)
Definition unquote_head (s : string) : option (ascii * string) :=
  match s with
  | EmptyString => None
  | String "&" _ => None
  | String "+" r => Some (" "%char, r)
  | String "%" (String x (String y r)) =>
      let b := (16 * hex_value x + hex_value y)%N in
      if N.ltb b 128 then Some (ascii_of_N b, r)
      else
        match r with
        | String "%" (String x2 (String y2 r2)) =>
            let b2 := (16 * hex_value x2 + hex_value y2)%N in
            Some (ascii_of_N ((b - 192) * 64 + (b2 - 128)), r2)
        | _ => None
        end
  | String "%" _ => None
  | String c r => Some (c, r)
  end.

(** The number of occurrences of a character in a text. *)
Fixpoint count_char (c : ascii) (s : string) : nat :=
  match s with
  | EmptyString => O
  | String d s' => ((if Ascii.eqb d c then 1 else 0) + count_char c s')%nat
  end.

(* ================================================================== *)
(** * Part II: theorems                                                *)
(* ================================================================== *)

(** ** Facts about the text primitives *)

Module PyFacts.
Import Py.

Lemma all_chars_filter p s : all_chars p (filter p s) = true.
Proof.
  induction s as [|c s IH]; simpl; auto.
  destruct (p c) eqn:E; simpl; auto. now rewrite E.
Qed.

Lemma all_chars_map (p q : ascii -> bool) f s :
  (forall c, p c = true -> q (f c) = true) ->
  all_chars p s = true -> all_chars q (map f s) = true.
Proof.
  intros Hf. induction s as [|c s IH]; simpl; auto.
  intros [Hc Hs]%andb_prop. now rewrite (Hf _ Hc), IH.
Qed.

Lemma all_chars_take p n s :
  all_chars p s = true -> all_chars p (take n s) = true.
Proof.
  revert s. induction n as [|n IH]; intros [|c s]; simpl; auto.
  intros [Hc Hs]%andb_prop. now rewrite Hc, IH.
Qed.

Lemma all_chars_lstrip p s :
  all_chars p s = true -> all_chars p (lstrip s) = true.
Proof.
  induction s as [|c s IH]; simpl; auto.
  intros H. destruct (isspace c); [|exact H].
  apply andb_prop in H. now apply IH.
Qed.

Lemma all_chars_rstrip p s :
  all_chars p s = true -> all_chars p (rstrip s) = true.
Proof.
  induction s as [|c s IH]; simpl; auto.
  intros [Hc Hs]%andb_prop. specialize (IH Hs).
  destruct (rstrip s) as [|d r].
  - destruct (isspace c); simpl; auto. now rewrite Hc.
  - change (all_chars p (String c (String d r)))
      with (p c && all_chars p (String d r))%bool.
    now rewrite Hc, IH.
Qed.

Lemma all_chars_In p s :
  all_chars p s = true ->
  forall c, In c (list_ascii_of_string s) -> p c = true.
Proof.
  induction s as [|d s IH]; simpl; [tauto|].
  intros [Hd Hs]%andb_prop c [<-|Hin]; auto.
Qed.

Lemma filter_id p s : all_chars p s = true -> filter p s = s.
Proof.
  induction s as [|c s IH]; simpl; auto.
  intros [Hc Hs]%andb_prop. now rewrite Hc, IH.
Qed.

Lemma map_id (p : ascii -> bool) f s :
  (forall c, p c = true -> f c = c) ->
  all_chars p s = true -> map f s = s.
Proof.
  intros Hf. induction s as [|c s IH]; simpl; auto.
  intros [Hc Hs]%andb_prop. now rewrite (Hf _ Hc), IH.
Qed.

Lemma length_take n s : (String.length (take n s) <= n)%nat.
Proof.
  revert s. induction n as [|n IH]; intros [|c s]; simpl; try lia.
  specialize (IH s). lia.
Qed.

Lemma take_id n s : (String.length s <= n)%nat -> take n s = s.
Proof.
  revert s. induction n as [|n IH]; intros [|c s]; simpl; auto; try lia.
  intros H. f_equal. apply IH. lia.
Qed.

Lemma length_rstrip s : (String.length (rstrip s) <= String.length s)%nat.
Proof.
  induction s as [|c s IH]; simpl; auto.
  destruct (rstrip s) as [|d r].
  - destruct (isspace c); simpl; lia.
  - simpl in *. lia.
Qed.

Lemma lstrip_id s : starts_with_space s = false -> lstrip s = s.
Proof. destruct s as [|c s]; simpl; auto. now intros ->. Qed.

Lemma starts_lstrip s : starts_with_space (lstrip s) = false.
Proof.
  induction s as [|c s IH]; simpl; auto.
  destruct (isspace c) eqn:E; auto.
Qed.

Lemma starts_rstrip s :
  starts_with_space s = false -> starts_with_space (rstrip s) = false.
Proof.
  destruct s as [|c s]; simpl; auto. intros E.
  destruct (rstrip s); [rewrite E|]; simpl; auto.
Qed.

Lemma starts_take n s :
  starts_with_space s = false -> starts_with_space (take n s) = false.
Proof. destruct n, s; simpl; auto. Qed.

Lemma starts_replace s :
  starts_with_space s = false ->
  starts_with_space (replace " " "_" s) = false.
Proof.
  destruct s as [|c s]; simpl; auto. intros E.
  destruct (Ascii.eqb c " "); auto.
Qed.

Lemma rstrip_fix s : rstrip s = s <-> ends_with_space s = false.
Proof.
  induction s as [|c s IH]; [simpl; tauto|].
  destruct s as [|d s].
  - simpl. destruct (isspace c); split; congruence.
  - change (ends_with_space (String c (String d s)))
      with (ends_with_space (String d s)).
    rewrite <- IH.
    change (rstrip (String c (String d s)))
      with (match rstrip (String d s) with
            | EmptyString =>
                if isspace c then EmptyString else String c EmptyString
            | r => String c r
            end).
    destruct (rstrip (String d s)) as [|e r] eqn:E.
    + split; [destruct (isspace c)|]; intros H; discriminate H.
    + split; intros H; [now inversion H | now rewrite H].
Qed.

End PyFacts.

(** ** [sanitize] *)

Section Sanitize.
Import Py PyFacts.

Lemma sanitize_clean s : all_chars clean (sanitize s) = true.
Proof.
  unfold sanitize, strip, replace, re_sub_forbidden.
  apply all_chars_take, (all_chars_map clean).
  - intros c Hc. destruct (Ascii.eqb c " "); auto.
  - apply all_chars_rstrip, all_chars_lstrip, all_chars_filter.
Qed.

Lemma sanitize_unspaced s : all_chars unspaced (sanitize s) = true.
Proof.
  unfold sanitize, replace.
  apply all_chars_take, (all_chars_map (fun _ => true)).
  - intros c _. unfold unspaced. destruct (Ascii.eqb c " ") eqn:E; auto.
    now rewrite E.
  - generalize (strip (re_sub_forbidden s)).
    induction s0; simpl; auto.
Qed.

Lemma sanitize_length s : (String.length (sanitize s) <= 150)%nat.
Proof. apply length_take. Qed.

Lemma sanitize_starts s : starts_with_space (sanitize s) = false.
Proof.
  unfold sanitize, strip.
  apply starts_take, starts_replace, starts_rstrip, starts_lstrip.
Qed.

(** A second pass only trims whitespace at the end. *)
Lemma sanitize_twice s : sanitize (sanitize s) = rstrip (sanitize s).
Proof.
  set (t := sanitize s).
  unfold sanitize at 1. unfold re_sub_forbidden.
  rewrite (filter_id _ t) by apply sanitize_clean.
  unfold strip. rewrite (lstrip_id t) by apply sanitize_starts.
  unfold replace. rewrite (map_id unspaced).
  - apply take_id. etransitivity; [apply length_rstrip|apply sanitize_length].
  - intros c Hc. unfold unspaced in Hc.
    now destruct (Ascii.eqb c " ").
  - apply all_chars_rstrip, sanitize_unspaced.
Qed.

Lemma no_space_ends s :
  all_chars (fun c => negb (isspace c)) s = true -> ends_with_space s = false.
Proof.
  induction s as [|c s IH]; simpl; auto.
  intros [Hc Hs]%andb_prop. destruct s; [|auto].
  now destruct (isspace c).
Qed.

Lemma sanitize_no_space s :
  (forall c, In c (list_ascii_of_string s) -> isspace c = true -> c = " "%char) ->
  all_chars (fun c => negb (isspace c)) (sanitize s) = true.
Proof.
  intros Hs. unfold sanitize, strip, replace, re_sub_forbidden.
  apply all_chars_take.
  apply (all_chars_map
           (fun c => negb (isspace c) || Ascii.eqb c " ")%bool).
  - intros c Hc. destruct (Ascii.eqb c " ") eqn:E; [reflexivity|].
    now rewrite orb_false_r in Hc.
  - apply all_chars_rstrip, all_chars_lstrip.
    clear - Hs. induction s as [|c s IH]; simpl; auto.
    assert (Hc : (negb (isspace c) || Ascii.eqb c " ")%bool = true).
    { destruct (isspace c) eqn:E; auto.
      rewrite (Hs c (or_introl eq_refl) E). reflexivity. }
    assert (IH' : all_chars (fun c0 => (negb (isspace c0) || Ascii.eqb c0 " ")%bool)
                    (filter (fun c0 => negb (forbidden c0)) s) = true).
    { apply IH. intros d Hd. apply Hs. now right. }
    destruct (negb (forbidden c)); simpl; auto. now rewrite Hc, IH'.
Qed.

End Sanitize.

(** C7 (as the spec words it) fails: a title whose 150th character is a
    tab keeps the tab after one pass and loses it in the second. *)
Lemma sanitize_not_idempotent :
  sanitize (sanitize tabbed_title) <> sanitize tabbed_title.
Proof. vm_compute. discriminate. Qed.

(** C7, amended: a second pass of [sanitize] changes nothing exactly
    when the first result does not end in whitespace (a second pass only
    trims); in particular when the only whitespace of the input is the
    space character. *)
Theorem sanitize_idempotent_iff (s : string) :
  (sanitize (sanitize s) = sanitize s
   <-> Py.ends_with_space (sanitize s) = false)
  /\ ((forall c, In c (list_ascii_of_string s) ->
                 Py.isspace c = true -> c = " "%char) ->
      sanitize (sanitize s) = sanitize s).
Proof.
  split.
  - rewrite sanitize_twice. apply PyFacts.rstrip_fix.
  - intros Hs. rewrite sanitize_twice. apply PyFacts.rstrip_fix.
    now apply no_space_ends, sanitize_no_space.
Qed.

Lemma sanitize_idempotent_iff_witness :
  Py.ends_with_space (sanitize "  a b: c?  ") = false
  /\ sanitize (sanitize "  a b: c?  ") = sanitize "  a b: c?  "
  /\ sanitize (sanitize "a b") = sanitize "a b".
Proof.
  split; [reflexivity|]. split.
  - apply (proj1 (sanitize_idempotent_iff "  a b: c?  ")). reflexivity.
  - apply (proj2 (sanitize_idempotent_iff "a b")).
    intros c Hin Hc. simpl in Hin.
    destruct Hin as [<-|[<-|[<-|[]]]]; try discriminate Hc; reflexivity.
Defined.

(** ** The scraper *)

Section ScraperFacts.
Context `{Upstream}.

Lemma length_slice_to {A} (l : list A) (n : Z) :
  0 <= n -> Z.of_nat (List.length (Py.slice_to l n)) <= n.
Proof.
  intros Hn. unfold Py.slice_to.
  destruct (Z.leb_spec 0 n); [|lia].
  rewrite length_firstn. lia.
Qed.

Lemma range_nonpos n : n <= 0 -> Py.range n = [].
Proof.
  intros Hn. unfold Py.range.
  replace (Z.to_nat n) with O by lia. reflexivity.
Qed.

Lemma pages_needed_negative n : n < 0 -> n / 10 + 1 <= 0.
Proof.
  intros Hn. assert (n / 10 < 0) by (apply Z.div_lt_upper_bound; lia). lia.
Qed.

Lemma scrape_negative_run topic n w :
  n < 0 -> scrape_scholar topic n w = ([], w, []).
Proof.
  intros Hn. unfold scrape_scholar.
  rewrite range_nonpos by now apply pages_needed_negative.
  simpl. unfold bind, ret. simpl.
  unfold Py.slice_to. destruct (0 <=? n); now rewrite firstn_nil.
Qed.

(** Every paper the loop gathers comes out of [extract_paper]. *)
Lemma scrape_pages_extracted topic n pages :
  forall all_papers w,
    Forall (fun p => exists item, p = extract_paper item) all_papers ->
    Forall (fun p => exists item, p = extract_paper item)
      (value (scrape_pages topic n pages all_papers w)).
Proof.
  induction pages as [|page_idx pages IH]; intros all_papers w Hall.
  - exact Hall.
  - simpl. unfold bind, http_get, value.
    destruct (requests_get _ 15 w) as [[e|resp] w1]; [exact Hall|].
    destruct (find_results (resp_text resp)) as [|item items] eqn:Er;
      [exact Hall|].
    set (all' := (all_papers ++ List.map extract_paper (item :: items))%list).
    assert (Hall' : Forall (fun p => exists item, p = extract_paper item) all').
    { apply Forall_app. split; [exact Hall|].
      apply Forall_forall. intros p [x [<- _]]%in_map_iff. now exists x. }
    destruct (Z.of_nat (List.length all') >=? n); [exact Hall'|].
    unfold sleep. specialize (IH all' w1 Hall'). unfold value in IH.
    destruct (scrape_pages topic n pages all' w1) as [[v w2] t2].
    exact IH.
Qed.

Lemma Forall_firstn {A} (P : A -> Prop) k l :
  Forall P l -> Forall P (firstn k l).
Proof.
  intros Hl. revert k. induction Hl as [|x l Hx Hl IH]; intros [|k];
    simpl; constructor; auto.
Qed.

Lemma Forall_slice_to {A} (P : A -> Prop) l n :
  Forall P l -> Forall P (Py.slice_to l n).
Proof.
  intros Hl. unfold Py.slice_to.
  destruct (0 <=? n); now apply Forall_firstn.
Qed.

Lemma scrape_scholar_extracted topic n w :
  Forall (fun p => exists item, p = extract_paper item)
    (value (scrape_scholar topic n w)).
Proof.
  unfold scrape_scholar, bind, value.
  pose proof (scrape_pages_extracted topic n (Py.range (n / 10 + 1)) [] w
                (Forall_nil _)) as Hp.
  unfold value in Hp.
  destruct (scrape_pages topic n (Py.range (n / 10 + 1)) [] w) as [[v w1] t1].
  simpl in *. now apply Forall_slice_to.
Qed.

Lemma scrape_scholar_length topic n w :
  Z.of_nat (List.length (value (scrape_scholar topic n w))) <= Z.max 0 n.
Proof.
  destruct (Z.lt_ge_cases n 0) as [Hn|Hn].
  - rewrite scrape_negative_run by exact Hn. simpl. lia.
  - unfold scrape_scholar, bind, value.
    destruct (scrape_pages topic n (Py.range (n / 10 + 1)) [] w) as [[v w1] t1].
    simpl. pose proof (length_slice_to v n Hn). lia.
Qed.

End ScraperFacts.

(** ** The resolver *)

Lemma resolve_pdf_url_nonempty p u :
  resolve_pdf_url p = Some u -> u <> EmptyString.
Proof.
  unfold resolve_pdf_url, Py.truthy, Py.nonempty, get_default.
  assert (Hsrc : (if (match source_url p with
                      | Some (String _ _) => true
                      | _ => false
                      end
                      && Py.contains ".pdf"
                           (Py.lower match source_url p with
                                     | Some v => v
                                     | None => EmptyString
                                     end))%bool
                  then source_url p else None) = Some u -> u <> EmptyString).
  { destruct (source_url p) as [[|d src]|]; try discriminate.
    destruct (_ && _)%bool; [intros [= <-]|]; discriminate. }
  destruct (pdf_link p) as [[|c l]|]; auto.
  destruct (Py.startswith "//" (String c l)); [intros [= <-]; discriminate|].
  destruct (Py.startswith "/" (String c l)); intros [= <-]; discriminate.
Qed.

Lemma extract_paper_has_pdf item :
  has_pdf (extract_paper item) = Some (is_some (download_url (extract_paper item))).
Proof. reflexivity. Qed.

Lemma extract_paper_download_url item u :
  download_url (extract_paper item) = Some u -> u <> EmptyString.
Proof. apply resolve_pdf_url_nonempty. Qed.

(** ** The routes *)

Section RouteFacts.
Context `{Upstream}.

Lemma is_pdf_false content :
  firstn 4 content <> pdf_magic -> is_pdf content = false.
Proof.
  intros Hne. unfold is_pdf.
  destruct (list_eq_dec Byte.byte_eq_dec (firstn 4 content) pdf_magic); tauto.
Qed.

(** The three ways a turn of the loop ends without a download. *)
Lemma zip_step_no_url i p st w :
  Py.truthy (download_url p) = false ->
  zip_step i p st w
  = ({| entries := entries st; downloaded := downloaded st;
        metadata_lines := (metadata_lines st ++ report_block i p)%list |}, w, []).
Proof. intros Hu. unfold zip_step. rewrite Hu. reflexivity. Qed.

Lemma zip_step_raise i p st w url e w' :
  download_url p = Some url -> url <> EmptyString ->
  requests_get url 30 w = (inl e, w') ->
  zip_step i p st w
  = ({| entries := entries st; downloaded := downloaded st;
        metadata_lines := (metadata_lines st ++ report_block i p)%list |},
     w', [Get url 30]).
Proof.
  intros Hu Hne Hr. unfold zip_step. rewrite Hu.
  destruct url; [congruence|]. simpl.
  unfold bind, http_get. simpl. rewrite Hr. reflexivity.
Qed.

Lemma zip_step_not_pdf i p st w url resp w' :
  download_url p = Some url -> url <> EmptyString ->
  requests_get url 30 w = (inr resp, w') ->
  is_pdf (resp_content resp) = false ->
  zip_step i p st w
  = ({| entries := entries st; downloaded := downloaded st;
        metadata_lines := (metadata_lines st ++ report_block i p)%list |},
     w', [Get url 30]).
Proof.
  intros Hu Hne Hr Hp. unfold zip_step. rewrite Hu.
  destruct url; [congruence|]. simpl.
  unfold bind, http_get. simpl. rewrite Hr, Hp. reflexivity.
Qed.

(** The payload is a PDF, yet the name is empty once it is cut:
    [writestr] raises and the turn ends as a failed one. *)
Lemma zip_step_no_name i p st w url resp w' :
  download_url p = Some url -> url <> EmptyString ->
  requests_get url 30 w = (inr resp, w') ->
  is_pdf (resp_content resp) = true ->
  zip_name (sanitize (get_default (title p) ("paper_" ++ Py.str_of_Z (i + 1)))
            ++ ".pdf") = EmptyString ->
  zip_step i p st w
  = ({| entries := entries st; downloaded := downloaded st;
        metadata_lines := (metadata_lines st ++ report_block i p)%list |},
     w', [Get url 30]).
Proof.
  intros Hu Hne Hr Hp Hn. unfold zip_step. rewrite Hu.
  destruct url; [congruence|]. cbv zeta. cbn [Py.truthy Py.nonempty negb get_default].
  unfold bind, http_get. rewrite Hr, Hp, Hn. reflexivity.
Qed.

(** The one way it ends with a download. *)
Lemma zip_step_pdf i p st w url resp w' :
  download_url p = Some url -> url <> EmptyString ->
  requests_get url 30 w = (inr resp, w') ->
  is_pdf (resp_content resp) = true ->
  zip_name (sanitize (get_default (title p) ("paper_" ++ Py.str_of_Z (i + 1)))
            ++ ".pdf") <> EmptyString ->
  zip_step i p st w
  = ({| entries :=
          (entries st
           ++ [(zip_name (sanitize (get_default (title p)
                                      ("paper_" ++ Py.str_of_Z (i + 1))) ++ ".pdf"),
                ZBytes (resp_content resp))])%list;
        downloaded := downloaded st + 1;
        metadata_lines := (metadata_lines st ++ report_block i p)%list |},
     w', [Get url 30; Sleep 1]).
Proof.
  intros Hu Hne Hr Hp Hn. unfold zip_step. rewrite Hu.
  destruct url; [congruence|]. cbv zeta. cbn [Py.truthy Py.nonempty negb get_default].
  unfold bind, http_get. rewrite Hr, Hp.
  destruct (zip_name _) eqn:En; [congruence|]. reflexivity.
Qed.

(** A name without a NUL character is stored as it is. *)
Lemma zip_name_id s :
  Py.all_chars (fun c => negb (N.eqb (Py.code c) 0)) s = true -> zip_name s = s.
Proof.
  induction s as [|c s IH]; [reflexivity|]. cbn [Py.all_chars zip_name].
  intros [Hc Hs]%andb_prop. apply negb_true_iff in Hc. now rewrite Hc, IH.
Qed.

Lemma has_newline_app s1 s2 :
  has_newline (s1 ++ s2) = (has_newline s1 || has_newline s2)%bool.
Proof.
  induction s1 as [|c s1 IH]; [reflexivity|]. cbn [String.append has_newline].
  now rewrite IH, orb_assoc.
Qed.

(** What one turn does to the state, whatever the outcome. *)
Lemma zip_step_effect i p st w :
  let st' := value (zip_step i p st w) in
  metadata_lines st' = (metadata_lines st ++ report_block i p)%list
  /\ exists new,
       entries st' = (entries st ++ new)%list
       /\ downloaded st' = downloaded st + Z.of_nat (List.length new)
       /\ (List.length new <= 1)%nat
       /\ forallb is_pdf_entry new = true.
Proof.
  destruct (Py.truthy (download_url p)) eqn:Hu.
  - destruct (download_url p) as [url|] eqn:Eu; [|discriminate].
    assert (Hne : url <> EmptyString) by (intros ->; discriminate).
    destruct (requests_get url 30 w) as [[e|resp] w'] eqn:Hr.
    + rewrite (zip_step_raise i p st w url e w' Eu Hne Hr). simpl.
      split; [reflexivity|]. exists []. rewrite app_nil_r. simpl.
      repeat split; auto; lia.
    + destruct (is_pdf (resp_content resp)) eqn:Hp.
      * destruct (zip_name (sanitize (get_default (title p)
                                        ("paper_" ++ Py.str_of_Z (i + 1)))
                            ++ ".pdf")) as [|c name] eqn:En.
        -- rewrite (zip_step_no_name i p st w url resp w' Eu Hne Hr Hp En). simpl.
           split; [reflexivity|]. exists []. rewrite app_nil_r. simpl.
           repeat split; auto; lia.
        -- rewrite (zip_step_pdf i p st w url resp w' Eu Hne Hr Hp)
             by (rewrite En; discriminate).
           simpl. split; [reflexivity|]. eexists [_]. simpl.
           repeat split; auto. unfold is_pdf_entry. simpl. now rewrite Hp.
      * rewrite (zip_step_not_pdf i p st w url resp w' Eu Hne Hr Hp). simpl.
        split; [reflexivity|]. exists []. rewrite app_nil_r. simpl.
        repeat split; auto; lia.
  - rewrite (zip_step_no_url i p st w Hu). simpl.
    split; [reflexivity|]. exists []. rewrite app_nil_r. simpl.
    repeat split; auto; lia.
Qed.

(** The loop: one report block for each paper, in order, and a count
    that follows the PDF entries. *)
Lemma zip_loop_effect papers :
  forall i st w,
    let st' := value (zip_loop i papers st w) in
    metadata_lines st'
    = (metadata_lines st
       ++ List.concat (List.map (fun ip => report_block (fst ip) (snd ip))
                         (enumerate_from i papers)))%list
    /\ exists new,
         entries st' = (entries st ++ new)%list
         /\ downloaded st' = downloaded st + Z.of_nat (List.length new)
         /\ (List.length new <= List.length papers)%nat
         /\ forallb is_pdf_entry new = true.
Proof.
  induction papers as [|p papers IH]; intros i st w; simpl.
  - unfold value, ret. simpl.
    split; [now rewrite app_nil_r|]. exists []. rewrite app_nil_r. simpl.
    repeat split; auto; lia.
  - unfold bind, value.
    pose proof (zip_step_effect i p st w) as Hs. unfold value in Hs.
    destruct (zip_step i p st w) as [[st1 w1] t1]. simpl in Hs.
    destruct Hs as (Hm1 & new1 & He1 & Hd1 & Hl1 & Hp1).
    specialize (IH (i + 1) st1 w1). unfold value in IH.
    destruct (zip_loop (i + 1) papers st1 w1) as [[st2 w2] t2].
    simpl in IH |- *.
    destruct IH as (Hm2 & new2 & He2 & Hd2 & Hl2 & Hp2).
    split.
    + rewrite Hm2, Hm1, <- app_assoc. reflexivity.
    + exists (new1 ++ new2)%list. rewrite He2, He1, <- app_assoc.
      rewrite length_app, forallb_app, Hp1, Hp2.
      repeat split; auto; lia.
Qed.

Lemma length_enumerate_from {A} (l : list A) i :
  List.length (enumerate_from i l) = List.length l.
Proof. revert i. induction l as [|x l IH]; intros i; simpl; auto. Qed.

Lemma download_zip_nonempty papers topic w :
  papers <> [] ->
  download_zip papers topic w
  = (st <- zip_loop 0 papers zip_init ;;
     if has_newline (sanitize (get_default topic "research_papers") ++ "_papers.zip")
     then ret InternalServerError
     else
       ret (ZipAttachment
              (entries st
               ++ [("metadata_report.txt",
                    ZText (metadata_text (get_default topic "research_papers")
                             papers st))])%list
              (sanitize (get_default topic "research_papers") ++ "_papers.zip")%string))
      w.
Proof. destruct papers; [congruence|reflexivity]. Qed.

End RouteFacts.

(** C10: [sanitize] is total; its result has none of the nine forbidden
    characters and at most 150 characters; it can be empty (a title of
    forbidden characters only), and then the entry name of the PDF in the
    archive is [.pdf] and the name of the archive is [_papers.zip]. *)
Theorem sanitize_safe_filename `{Upstream} (s : string) :
  (forall c, In c forbidden_chars ->
             ~ In c (list_ascii_of_string (sanitize s)))
  /\ (String.length (sanitize s) <= 150)%nat
  /\ sanitize (string_of_list_ascii forbidden_chars) = EmptyString
  /\ (sanitize s = EmptyString ->
      (forall i p st w url resp w',
          title p = Some s ->
          download_url p = Some url -> url <> EmptyString ->
          requests_get url 30 w = (inr resp, w') ->
          is_pdf (resp_content resp) = true ->
          entries (value (zip_step i p st w))
          = (entries st ++ [(".pdf", ZBytes (resp_content resp))])%list)
      /\ (forall papers w,
             papers <> [] ->
             exists archive,
               value (download_zip papers (Some s) w)
               = ZipAttachment archive "_papers.zip")).
Proof.
  split; [|split; [|split; [|intros Hs; split]]].
  - intros c Hc Hin.
    pose proof (PyFacts.all_chars_In _ _ (sanitize_clean s) c Hin) as Hn.
    simpl in Hn. apply negb_true_iff in Hn.
    assert (forbidden c = true); [|congruence].
    apply existsb_exists. exists c. split; [exact Hc|apply Ascii.eqb_refl].
  - apply sanitize_length.
  - reflexivity.
  - intros i p st w url resp w' Ht Hu Hne Hr Hp.
    assert (Hn : zip_name (sanitize (get_default (title p)
                                       ("paper_" ++ Py.str_of_Z (i + 1)))
                           ++ ".pdf") = ".pdf").
    { rewrite Ht. cbn [get_default]. rewrite Hs. reflexivity. }
    rewrite (zip_step_pdf i p st w url resp w' Hu Hne Hr Hp)
      by (rewrite Hn; discriminate).
    unfold value. cbn [fst entries]. now rewrite Hn.
  - intros papers w Hne. rewrite (download_zip_nonempty papers (Some s) w Hne).
    unfold bind, value. cbn [get_default]. rewrite Hs.
    destruct (zip_loop 0 papers zip_init w) as [[st1 w1] t1].
    cbn. eexists. reflexivity.
Qed.

Lemma sanitize_safe_filename_witness :
  sanitize "<?>" = EmptyString
  /\ entries (value (@zip_step file_host 0 (record "<?>" (Some "http://h/a.pdf"))
                       zip_init tt))
     = [(".pdf", ZBytes pdf_bytes)]
  /\ exists archive,
       value (@download_zip file_host three_records (Some "<?>") tt)
       = ZipAttachment archive "_papers.zip".
Proof.
  pose proof (@sanitize_safe_filename file_host "<?>") as (_ & _ & _ & Hdeg).
  specialize (Hdeg eq_refl). destruct Hdeg as [Hpdf Hzip].
  split; [reflexivity|]. split.
  - apply (Hpdf 0 (record "<?>" (Some "http://h/a.pdf")) zip_init tt
             "http://h/a.pdf"
             {| resp_text := EmptyString; resp_content := pdf_bytes |} tt);
      try reflexivity. discriminate.
  - apply Hzip. discriminate.
Defined.

(** ** Claims about the scraper *)

(** C9: for a negative count the page count [n // 10 + 1] is not
    positive, the scraper does nothing to the outside (no request, no
    delay) and returns the empty list. *)
Theorem scrape_scholar_negative `{Upstream} (topic : string) (n : Z) (w : World) :
  n < 0 ->
  n / 10 + 1 <= 0
  /\ trace (scrape_scholar topic n w) = []
  /\ value (scrape_scholar topic n w) = [].
Proof.
  intros Hn. split; [now apply pages_needed_negative|].
  now rewrite scrape_negative_run.
Qed.

Lemma scrape_scholar_negative_witness :
  -7 / 10 + 1 <= 0
  /\ trace (@scrape_scholar ten_per_page "graphs" (-7) tt) = []
  /\ value (@scrape_scholar ten_per_page "graphs" (-7) tt) = [].
Proof. apply (@scrape_scholar_negative ten_per_page "graphs" (-7) tt). lia. Defined.

(** C1 (as the spec words it) fails twice: a negative count gives the
    empty list, whose length is not below the count; and [scrape_scholar]
    itself has no cap, so forty results come back for a count of forty. *)
Lemma scrape_length_min_fails :
  ~ (Z.of_nat (List.length (value (@scrape_scholar offline "graphs" (-1) tt)))
     <= Z.min (-1) 30)
  /\ ~ (Z.of_nat (List.length (value (@scrape_scholar ten_per_page "graphs" 40 tt)))
        <= Z.min 40 30).
Proof. split; vm_compute; intros Hle; apply Hle; reflexivity. Qed.

(** C1, amended: [scrape_scholar] returns at most [max(n, 0)] papers;
    the cap of 30 is applied by [search], whose list has at most
    [max(0, min(n, 30))] papers. *)
Theorem scrape_length_bound `{Upstream} (topic : string) (n : Z) (w : World) :
  Z.of_nat (List.length (value (scrape_scholar topic n w))) <= Z.max 0 n
  /\ Z.of_nat (List.length (papers_of (value (search (Some topic) (Some n) w))))
     <= Z.max 0 (Z.min n 30).
Proof.
  split; [apply scrape_scholar_length|].
  unfold search. cbv zeta. cbn [get_default].
  destruct (negb (Py.nonempty (Py.strip topic)));
    [unfold value, ret; simpl; lia|].
  unfold bind, value.
  pose proof (scrape_scholar_length (Py.strip topic) (Z.min n MAX_RESULTS) w) as Hl.
  unfold value in Hl.
  destruct (scrape_scholar (Py.strip topic) (Z.min n MAX_RESULTS) w)
    as [[papers w1] t1].
  simpl in Hl. destruct papers as [|p papers]; simpl; [lia|].
  simpl in Hl. unfold MAX_RESULTS in Hl. lia.
Qed.

(** C3: for every paper that [scrape_scholar] returns, [has_pdf] is true
    exactly when [download_url] is a text that is not empty. *)
Theorem has_pdf_iff_download_url `{Upstream}
    (topic : string) (n : Z) (w : World) (p : paper) :
  In p (value (scrape_scholar topic n w)) ->
  (has_pdf p = Some true
   <-> exists u, download_url p = Some u /\ u <> EmptyString).
Proof.
  intros Hin.
  pose proof (scrape_scholar_extracted topic n w) as Hall.
  rewrite Forall_forall in Hall. destruct (Hall p Hin) as [item ->].
  rewrite extract_paper_has_pdf.
  destruct (download_url (extract_paper item)) as [u|] eqn:Eu; simpl.
  - split; [|reflexivity]. intros _. exists u. split; [reflexivity|].
    now apply (extract_paper_download_url item).
  - split; [discriminate|]. intros (u & Hu & _). discriminate Hu.
Qed.

Lemma has_pdf_iff_download_url_witness :
  has_pdf (extract_paper sample_item) = Some true
  <-> exists u, download_url (extract_paper sample_item) = Some u
                /\ u <> EmptyString.
Proof.
  apply (@has_pdf_iff_download_url ten_per_page "graphs" 1 tt).
  vm_compute. left. reflexivity.
Defined.

(** ** Claims about the resolver *)

(** C2 (as the spec words it) fails: an empty [pdf_link] is present, yet
    the resolver passes it over and answers with the source link. *)
Lemma resolve_empty_link_fails :
  resolve_spec empty_link_record = Some EmptyString
  /\ resolve_pdf_url empty_link_record = Some "http://x.com/a.pdf"
  /\ resolve_pdf_url empty_link_record <> resolve_spec empty_link_record.
Proof. repeat split. discriminate. Qed.

(** C2, amended: the resolver follows the rule of the spec with an empty
    [pdf_link] counted as absent. *)
Theorem resolve_pdf_url_spec (p : paper) :
  (pdf_link p <> Some EmptyString -> resolve_pdf_url p = resolve_spec p)
  /\ (pdf_link p = Some EmptyString ->
      resolve_pdf_url p = resolve_spec (without_pdf_link p)).
Proof.
  assert (Hsrc : (if (Py.truthy (source_url p)
                      && Py.contains ".pdf"
                           (Py.lower (get_default (source_url p) EmptyString)))%bool
                  then source_url p else None)
                 = match source_url p with
                   | Some src =>
                       if Py.contains ".pdf" (Py.lower src) then Some src else None
                   | None => None
                   end).
  { destruct (source_url p) as [[|d src]|]; reflexivity. }
  unfold resolve_pdf_url, resolve_spec. split.
  - destruct (pdf_link p) as [[|c l]|]; [congruence| |]; intros _.
    + reflexivity.
    + exact Hsrc.
  - intros ->. exact Hsrc.
Qed.

Lemma resolve_pdf_url_spec_witness :
  resolve_pdf_url (extract_paper sample_item) = resolve_spec (extract_paper sample_item)
  /\ resolve_pdf_url empty_link_record
     = resolve_spec (without_pdf_link empty_link_record).
Proof.
  split.
  - apply (proj1 (resolve_pdf_url_spec (extract_paper sample_item))).
    discriminate.
  - apply (proj2 (resolve_pdf_url_spec empty_link_record)). reflexivity.
Defined.

Example resolve_ex1 :
  resolve_pdf_url (extract_paper sample_item) = Some "https://host/a.pdf".
Proof. reflexivity. Qed.

Example resolve_ex2 :
  resolve_pdf_url (record "t" None) = None
  /\ resolve_pdf_url {| title := None; authors := None; year := None;
                        abstract := None; pdf_link := Some "/rel.pdf";
                        source_url := None; download_url := None;
                        has_pdf := None |}
     = Some "https://scholar.google.com/rel.pdf".
Proof. split; reflexivity. Qed.

(** ** Claims about the download routes *)

(** C4 (as the spec words it) fails: after a payload that is no PDF and
    after a failed request the next request follows at once; only the
    download that succeeds is followed by the delay. *)
Lemma zip_no_delay_after_failure :
  trace (@download_zip file_host failing_records None tt)
  = [Get "http://h/b.pdf" 30; Get "http://h/c.pdf" 30;
     Get "http://h/a.pdf" 30; Sleep 1]
  /\ throttled (trace (@download_zip file_host failing_records None tt)) = false.
Proof. split; reflexivity. Qed.

(** C4, amended: when the download of a paper succeeds (the request
    answers, the payload starts with the magic bytes, and the name of the
    entry is not empty once it is cut at its first NUL character, so that
    the file is written to the archive), a delay of one unit follows the
    request, before the papers after it are processed. *)
Theorem zip_delay_after_download `{Upstream}
    (i : Z) (p : paper) (papers : list paper) (st : zip_state) (w : World)
    (url : string) (resp : response) (w' : World) :
  download_url p = Some url -> url <> EmptyString ->
  requests_get url 30 w = (inr resp, w') ->
  is_pdf (resp_content resp) = true ->
  zip_name (sanitize (get_default (title p) ("paper_" ++ Py.str_of_Z (i + 1)))
            ++ ".pdf") <> EmptyString ->
  trace (zip_step i p st w) = [Get url 30; Sleep 1]
  /\ entries (value (zip_step i p st w))
     = (entries st
        ++ [(zip_name (sanitize (get_default (title p)
                                   ("paper_" ++ Py.str_of_Z (i + 1))) ++ ".pdf"),
             ZBytes (resp_content resp))])%list
  /\ exists st1,
       trace (zip_loop i (p :: papers) st w)
       = Get url 30 :: Sleep 1 :: trace (zip_loop (i + 1) papers st1 w').
Proof.
  intros Hu Hne Hr Hp Hn. split; [|split].
  - now rewrite (zip_step_pdf i p st w url resp w' Hu Hne Hr Hp Hn).
  - now rewrite (zip_step_pdf i p st w url resp w' Hu Hne Hr Hp Hn).
  - cbn [zip_loop]. unfold bind, trace.
    rewrite (zip_step_pdf i p st w url resp w' Hu Hne Hr Hp Hn).
    eexists. destruct (zip_loop (i + 1) papers _ w') as [[st2 w2] t2] eqn:E.
    rewrite E. reflexivity.
Qed.

Lemma zip_delay_after_download_witness :
  trace (@zip_step file_host 0 (record "Good one" (Some "http://h/a.pdf"))
           zip_init tt)
  = [Get "http://h/a.pdf" 30; Sleep 1]
  /\ entries (value (@zip_step file_host 0
                       (record "Good one" (Some "http://h/a.pdf")) zip_init tt))
     = [("Good_one.pdf", ZBytes pdf_bytes)].
Proof.
  destruct (@zip_delay_after_download file_host 0
              (record "Good one" (Some "http://h/a.pdf")) [] zip_init tt
              "http://h/a.pdf"
              {| resp_text := EmptyString; resp_content := pdf_bytes |} tt)
    as (Ht & He & _); try reflexivity; try discriminate.
  split; [exact Ht|exact He].
Defined.

(** A paper whose title starts with a NUL character: the payload is a
    PDF, the name of the entry is empty, and the turn ends as a failed one,
    without entry, count or delay. *)
Example zip_step_nul_title :
  @zip_step file_host 0
    (record (String (ascii_of_nat 0) "x") (Some "http://h/a.pdf")) zip_init tt
  = ({| entries := []; downloaded := 0;
        metadata_lines :=
          report_block 0 (record (String (ascii_of_nat 0) "x")
                            (Some "http://h/a.pdf")) |},
     tt, [Get "http://h/a.pdf" 30]).
Proof. reflexivity. Qed.






(** The run on the three sample records: one PDF and the report. *)
Example download_zip_three :
  exists report,
    value (@download_zip file_host three_records (Some "graphs") tt)
    = ZipAttachment [("Good_one.pdf", ZBytes pdf_bytes);
                     ("metadata_report.txt", ZText report)]
        "graphs_papers.zip"
    /\ Py.contains ("Downloaded PDFs: 1" ++ nl) report = true
    /\ Py.contains ("[3] No link" ++ nl) report = true
    /\ Py.contains ("    PDF URL  : N/A" ++ nl) report = true.
Proof. eexists. repeat split; reflexivity. Qed.

(** C6: a payload whose first four bytes are not the magic bytes makes
    [download_single] answer with a client error and no file, and makes
    [download_zip] go on with neither a new archive entry nor a higher
    count. *)
Theorem non_pdf_payload_rejected `{Upstream} (content : list byte) :
  firstn 4 content <> pdf_magic ->
  (forall url title w resp w',
      Py.truthy url = true ->
      requests_get (get_default url EmptyString) 30 w = (inr resp, w') ->
      resp_content resp = content ->
      value (download_single url title w)
      = JsonError 400 "The URL does not serve a valid PDF file.")
  /\ (forall i p st w url resp w',
         download_url p = Some url ->
         requests_get url 30 w = (inr resp, w') ->
         resp_content resp = content ->
         entries (value (zip_step i p st w)) = entries st
         /\ downloaded (value (zip_step i p st w)) = downloaded st).
Proof.
  intros Hmagic%is_pdf_false. split.
  - intros url title w resp w' Hu Hr <-.
    unfold download_single. cbv zeta. rewrite Hu. cbn [negb].
    unfold bind, http_get, value. rewrite Hr. cbn [fst snd]. rewrite Hmagic.
    reflexivity.
  - intros i p st w url resp w' Hu Hr <-.
    destruct url as [|c url].
    + rewrite zip_step_no_url by now rewrite Hu. split; reflexivity.
    + rewrite (zip_step_not_pdf i p st w (String c url) resp w' Hu
                 ltac:(discriminate) Hr Hmagic).
      split; reflexivity.
Qed.

Lemma non_pdf_payload_rejected_witness :
  value (@download_single file_host (Some "http://h/b.pdf") (Some "Not a PDF") tt)
  = JsonError 400 "The URL does not serve a valid PDF file."
  /\ entries (value (@zip_step file_host 1
                       (record "Not a PDF" (Some "http://h/b.pdf")) zip_init tt))
     = [].
Proof.
  assert (Hm : firstn 4 html_bytes <> pdf_magic) by discriminate.
  destruct (@non_pdf_payload_rejected file_host html_bytes Hm) as [Hs Hz].
  split.
  - apply (Hs (Some "http://h/b.pdf") (Some "Not a PDF") tt
             {| resp_text := "<html>"; resp_content := html_bytes |} tt);
      reflexivity.
  - apply (Hz 1 (record "Not a PDF" (Some "http://h/b.pdf")) zip_init tt
             "http://h/b.pdf"
             {| resp_text := "<html>"; resp_content := html_bytes |} tt);
      reflexivity.
Defined.

(** ** The year of a byline *)

Section YearFacts.

Lemma is_digit_word c : Re.is_digit c = true -> Re.is_word c = true.
Proof. unfold Re.is_word. now intros ->. Qed.

Ltac case_ifs :=
  repeat match goal with
         | |- context [if ?b then _ else _] => destruct b
         end.

(** At one position the pattern matches exactly a year token. *)
Lemma match_here_year prev s :
  Re.match_here year_pattern prev s
  = if year_token_after prev s 0 then Some (String.substring 0 4 s) else None.
Proof.
  unfold Re.match_here, year_pattern, year_token_after.
  destruct s as [|a [|b [|c [|d s]]]];
    cbn -[Ascii.eqb Re.is_digit Re.is_word xorb];
    try (case_ifs; reflexivity).
  replace (substring 0 0 s) with EmptyString by (destruct s; reflexivity).
  replace (Re.next_char s) with (get 0 s) by (destruct s; reflexivity).
  rewrite (Ascii.eqb_sym a "1"), (Ascii.eqb_sym a "2"),
    (Ascii.eqb_sym b "9"), (Ascii.eqb_sym b "0").
  destruct (Re.is_digit d) eqn:Ed;
    [rewrite (is_digit_word d Ed)
    |rewrite !andb_false_r, !andb_false_l; case_ifs; reflexivity].
  destruct (Re.is_digit c);
    [|rewrite !andb_false_r, !andb_false_l; case_ifs; reflexivity].
  destruct (Ascii.eqb_spec "1" a) as [<-|_];
    [|destruct (Ascii.eqb_spec "2" a) as [<-|_]].
  - change (Re.is_word "1") with true. change ("2" =? "1")%char with false.
    destruct (Re.is_word_opt prev), ("9" =? b)%char,
      (Re.is_word_opt (get 0 s)); reflexivity.
  - change (Re.is_word "2") with true.
    destruct (Re.is_word_opt prev), ("0" =? b)%char,
      (Re.is_word_opt (get 0 s)); reflexivity.
  - cbn [andb orb]. case_ifs; reflexivity.
Qed.

Lemma year_token_after_cons prev c s i :
  year_token_after prev (String c s) (S i) = year_token_after (Some c) s i.
Proof.
  unfold year_token_after. cbn [String.get Nat.add char_before].
  destruct i; reflexivity.
Qed.

(** The search finds the first year token, or none when there is none. *)
Lemma search_from_year s :
  forall prev,
    match Re.search_from year_pattern prev s with
    | Some m =>
        exists i, year_token_after prev s i = true
                  /\ (forall j, (j < i)%nat -> year_token_after prev s j = false)
                  /\ m = String.substring i 4 s
    | None => forall i, year_token_after prev s i = false
    end.
Proof.
  induction s as [|c s IH]; intros prev.
  - cbn [Re.search_from]. rewrite match_here_year.
    cbn. intros i. unfold year_token_after. now destruct i.
  - cbn [Re.search_from]. rewrite match_here_year.
    destruct (year_token_after prev (String c s) 0) eqn:E0.
    + exists O. split; [exact E0|]. split; [lia|reflexivity].
    + specialize (IH (Some c)).
      destruct (Re.search_from year_pattern (Some c) s) as [m|].
      * destruct IH as (i & Hi & Hmin & ->). exists (S i).
        rewrite year_token_after_cons. split; [exact Hi|]. split.
        -- intros [|j] Hj; [exact E0|].
           rewrite year_token_after_cons. apply Hmin. lia.
        -- reflexivity.
      * intros [|i]; [exact E0|]. rewrite year_token_after_cons. apply IH.
Qed.

End YearFacts.

(** C8: the year of a record is the first year token of its byline (the
    four characters at the least index that holds a token), and the
    sentinel [N/A] when the byline has no token. *)
Theorem year_is_first_token (item : result_item) (a : string) :
  authors (extract_paper item) = Some a ->
  (forall i,
      year_token_at a i = true ->
      (forall j, (j < i)%nat -> year_token_at a j = false) ->
      year (extract_paper item) = Some (String.substring i 4 a))
  /\ ((forall i, year_token_at a i = false) ->
      year (extract_paper item) = Some "N/A").
Proof.
  intros Ha.
  assert (Hy : year (extract_paper item)
               = Some match Re.search year_pattern a with
                      | Some m => m
                      | None => "N/A"
                      end).
  { injection Ha as <-. reflexivity. }
  rewrite Hy. clear Hy Ha.
  pose proof (search_from_year a None) as Hs. unfold year_token_at, Re.search.
  destruct (Re.search_from year_pattern None a) as [m|].
  - destruct Hs as (i0 & Hi0 & Hmin0 & ->). split.
    + intros i Hi Hmin. f_equal. f_equal.
      destruct (Nat.lt_trichotomy i i0) as [Hlt|[Heq|Hgt]]; [|exact (eq_sym Heq)|].
      * rewrite (Hmin0 i Hlt) in Hi. discriminate Hi.
      * rewrite (Hmin i0 Hgt) in Hi0. discriminate Hi0.
    + intros Hnone. rewrite (Hnone i0) in Hi0. discriminate Hi0.
  - split; [|reflexivity].
    intros i Hi _. rewrite (Hs i) in Hi. discriminate Hi.
Qed.

Lemma year_is_first_token_witness :
  year (extract_paper sample_item) = Some "2019"
  /\ year (extract_paper {| item_title := None; item_info := None;
                            item_abs := None; item_pdf := None |})
     = Some "N/A".
Proof.
  split.
  - apply (proj1 (year_is_first_token sample_item
                    "J. Smith - 2019 - Journal" eq_refl) 11%nat).
    + reflexivity.
    + intros j Hj.
      do 11 (destruct j as [|j]; [reflexivity|]). lia.
  - apply (proj2 (year_is_first_token
                    {| item_title := None; item_info := None;
                       item_abs := None; item_pdf := None |}
                    "Unknown" eq_refl)).
    intros i. do 8 (destruct i as [|i]; [reflexivity|]). reflexivity.
Defined.

Example build_scholar_url_ex :
  build_scholar_url ("a b/" ++ String (ascii_of_nat 233) "~_.-*") 10
  = "https://scholar.google.com/scholar?q=a+b%2F%C3%A9~_.-%2A&start=10&hl=en&as_sdt=0%2C5".
Proof. reflexivity. Qed.

Example year_ex1 : Re.search year_pattern "J. Smith - 2019 - Journal" = Some "2019".
Proof. reflexivity. Qed.

Example year_ex2 : Re.search year_pattern "20191 1999" = Some "1999".
Proof. reflexivity. Qed.

Example year_ex3 : Re.search year_pattern "_2019 x2019" = None.
Proof. reflexivity. Qed.

(* ================================================================== *)
(** * Part III: further properties of the code                         *)
(* ================================================================== *)

(** ** More on [sanitize] *)

Section SanitizeMore.
Import Py PyFacts.

Lemma length_py_map f s : String.length (map f s) = String.length s.
Proof. induction s as [|c s IH]; simpl; auto. Qed.

Lemma length_filter_le p s : (String.length (filter p s) <= String.length s)%nat.
Proof.
  induction s as [|c s IH]; simpl; auto. destruct (p c); simpl; lia.
Qed.

Lemma length_lstrip_le s : (String.length (lstrip s) <= String.length s)%nat.
Proof.
  induction s as [|c s IH]; simpl; auto. destruct (isspace c); simpl; lia.
Qed.

Lemma length_take_le n s : (String.length (take n s) <= String.length s)%nat.
Proof.
  revert s. induction n as [|n IH]; intros [|c s]; simpl; try lia.
  specialize (IH s). lia.
Qed.

Lemma ends_rstrip s : ends_with_space (rstrip s) = false.
Proof.
  induction s as [|c s IH]; [reflexivity|].
  change (rstrip (String c s))
    with (match rstrip s with
          | EmptyString => if isspace c then EmptyString else String c EmptyString
          | r => String c r
          end).
  destruct (rstrip s) as [|d r].
  - destruct (isspace c) eqn:E; simpl; auto.
  - exact IH.
Qed.

Lemma rstrip_empty s :
  starts_with_space s = false -> rstrip s = EmptyString -> s = EmptyString.
Proof.
  destruct s as [|c s]; [reflexivity|]. simpl. intros ->.
  destruct (rstrip s); discriminate.
Qed.

Lemma lstrip_empty s : lstrip s = EmptyString -> all_chars isspace s = true.
Proof.
  induction s as [|c s IH]; simpl; auto.
  destruct (isspace c); [auto|discriminate].
Qed.

Lemma map_empty f s : map f s = EmptyString -> s = EmptyString.
Proof. destruct s; [reflexivity|discriminate]. Qed.

Lemma take_empty n s : take (S n) s = EmptyString -> s = EmptyString.
Proof. destruct s; [reflexivity|discriminate]. Qed.

Lemma lstrip_filter_dropped s :
  all_chars dropped s = true ->
  lstrip (filter (fun c => negb (forbidden c)) s) = EmptyString.
Proof.
  induction s as [|c s IH]; simpl; auto.
  intros [Hc Hs]%andb_prop. unfold dropped in Hc.
  destruct (forbidden c); simpl in *; [auto|]. rewrite Hc. auto.
Qed.

Lemma filter_all_space s :
  all_chars isspace (filter (fun c => negb (forbidden c)) s) = true ->
  all_chars dropped s = true.
Proof.
  induction s as [|c s IH]; simpl; auto. unfold dropped at 1.
  destruct (forbidden c); simpl; [auto|].
  intros [Hc Hs]%andb_prop. rewrite Hc. auto.
Qed.

(** X1: Three passes are two: after the second pass nothing changes. *)
Theorem sanitize_stable_after_two (s : string) :
  sanitize (sanitize (sanitize s)) = sanitize (sanitize s).
Proof.
  rewrite (sanitize_twice (sanitize s)).
  apply rstrip_fix. rewrite (sanitize_twice s). apply ends_rstrip.
Qed.

(** X2: The result has no space character and no whitespace in front. *)
Theorem sanitize_no_blank (s : string) :
  (forall c, In c (list_ascii_of_string (sanitize s)) -> c <> " "%char)
  /\ starts_with_space (sanitize s) = false.
Proof.
  split; [|apply sanitize_starts].
  intros c Hin ->.
  pose proof (all_chars_In _ _ (sanitize_unspaced s) _ Hin) as Hc.
  discriminate Hc.
Qed.

(** X3: The names that [sanitize] leaves as they are: exactly those of at
    most 150 characters, none forbidden, none a space, with no whitespace
    at either end. *)
Theorem sanitize_fixed_points (s : string) :
  sanitize s = s
  <-> (all_chars clean s = true /\ all_chars unspaced s = true
       /\ starts_with_space s = false /\ ends_with_space s = false
       /\ (String.length s <= 150)%nat).
Proof.
  split.
  - intros Hs. repeat split.
    + rewrite <- Hs. apply sanitize_clean.
    + rewrite <- Hs. apply sanitize_unspaced.
    + rewrite <- Hs. apply sanitize_starts.
    + apply rstrip_fix. rewrite <- Hs at 2. rewrite <- Hs at 1.
      rewrite <- sanitize_twice. now rewrite !Hs.
    + rewrite <- Hs. apply sanitize_length.
  - intros (Hc & Hu & Hst & He & Hl).
    unfold sanitize, re_sub_forbidden, strip, replace.
    rewrite (filter_id _ s) by exact Hc.
    rewrite (lstrip_id s Hst).
    rewrite (proj2 (rstrip_fix s) He).
    rewrite (map_id unspaced).
    + now apply take_id.
    + intros c Hcu. unfold unspaced in Hcu. now destruct (Ascii.eqb c " ").
    + exact Hu.
Qed.

Lemma sanitize_fixed_points_witness : sanitize "a_b_c" = "a_b_c".
Proof.
  apply (proj2 (sanitize_fixed_points "a_b_c")).
  repeat split; try reflexivity. simpl. lia.
Defined.

(** X4: [sanitize] never makes a name longer. *)
Theorem sanitize_shrinks (s : string) :
  (String.length (sanitize s) <= String.length s)%nat.
Proof.
  unfold sanitize, re_sub_forbidden, strip, replace.
  etransitivity; [apply length_take_le|]. rewrite length_py_map.
  etransitivity; [apply length_rstrip|].
  etransitivity; [apply length_lstrip_le|]. apply length_filter_le.
Qed.

(** X5: The result is empty exactly when every character of the name is
    forbidden or whitespace. *)
Theorem sanitize_empty_iff (s : string) :
  sanitize s = EmptyString <-> all_chars dropped s = true.
Proof.
  unfold sanitize, re_sub_forbidden, strip, replace. split.
  - intros H%take_empty%map_empty.
    apply rstrip_empty in H; [|apply starts_lstrip].
    now apply filter_all_space, lstrip_empty.
  - intros H. now rewrite (lstrip_filter_dropped s H).
Qed.

Lemma sanitize_empty_iff_witness :
  sanitize (" ?" ++ String (ascii_of_nat 9) "*") = EmptyString.
Proof.
  apply (proj2 (sanitize_empty_iff (" ?" ++ String (ascii_of_nat 9) "*"))).
  reflexivity.
Defined.

End SanitizeMore.

(** ** More on the resolver and the extractor *)

(** X6: A PDF link that is not empty decides alone: the source link plays no
    part, the resolved URL never starts with a slash, and resolving it
    again as a PDF link gives it back. *)
Theorem resolve_from_pdf_link (p : paper) (link : string) :
  pdf_link p = Some link -> link <> EmptyString ->
  exists u,
    resolve_pdf_url p = Some u
    /\ Py.startswith "/" u = false
    /\ resolve_pdf_url (set_pdf_link (Some u) p) = Some u
    /\ forall src, resolve_pdf_url (set_source_url src p) = Some u.
Proof.
  intros Hl Hne.
  unfold resolve_pdf_url. cbn [pdf_link set_pdf_link set_source_url]. rewrite Hl.
  destruct link as [|c l]; [congruence|].
  cbn [Py.truthy Py.nonempty get_default].
  destruct (Py.startswith "//" (String c l)) eqn:E2;
    [|destruct (Py.startswith "/" (String c l)) eqn:E1].
  - eexists. repeat split; reflexivity.
  - eexists. repeat split; reflexivity.
  - exists (String c l). cbn [Py.truthy Py.nonempty get_default].
    rewrite E2, E1. repeat split; reflexivity.
Qed.

Lemma resolve_from_pdf_link_witness :
  exists u,
    resolve_pdf_url (extract_paper sample_item) = Some u
    /\ Py.startswith "/" u = false
    /\ resolve_pdf_url (set_pdf_link (Some u) (extract_paper sample_item)) = Some u
    /\ forall src,
         resolve_pdf_url (set_source_url src (extract_paper sample_item)) = Some u.
Proof.
  apply (resolve_from_pdf_link (extract_paper sample_item) "//host/a.pdf").
  - reflexivity.
  - discriminate.
Defined.

Lemma year_token_text s :
  forall prev i,
    year_token_after prev s i = true ->
    is_year_text (String.substring i 4 s) = true.
Proof.
  induction s as [|c s IH]; intros prev i Ht.
  - unfold year_token_after in Ht. destruct i; discriminate Ht.
  - destruct i as [|i].
    + clear IH. unfold year_token_after in Ht.
      destruct s as [|b [|c' [|d s]]]; try discriminate Ht.
      cbn [String.get Nat.add] in Ht.
      cbn [String.substring is_year_text].
      replace (substring 0 0 s) with EmptyString by (destruct s; reflexivity).
      apply andb_prop in Ht as [Ht _]. apply andb_prop in Ht as [Ht _].
      exact Ht.
    + rewrite year_token_after_cons in Ht.
      change (substring (S i) 4 (String c s)) with (substring i 4 s).
      now apply (IH (Some c)).
Qed.

Lemma extract_year_text item :
  exists y, year (extract_paper item) = Some y
            /\ (y = "N/A" \/ is_year_text y = true).
Proof.
  unfold extract_paper. cbn [year]. unfold Re.search.
  set (a := match item_info item with Some t => t | None => "Unknown" end).
  pose proof (search_from_year a None) as Hs.
  destruct (Re.search_from year_pattern None a) as [m|].
  - destruct Hs as (i & Hi & _ & ->). eexists. split; [reflexivity|].
    right. now apply (year_token_text a None).
  - eexists. split; [reflexivity|]. now left.
Qed.

(** X7: Every record that [scrape_scholar] returns has its four text fields
    and its flag set, and its year is the sentinel or a year text. *)
Theorem scraped_record_shape `{Upstream}
    (topic : string) (n : Z) (w : World) (p : paper) :
  In p (value (scrape_scholar topic n w)) ->
  title p <> None /\ authors p <> None /\ abstract p <> None
  /\ has_pdf p <> None
  /\ exists y, year p = Some y /\ (y = "N/A" \/ is_year_text y = true).
Proof.
  intros Hin.
  pose proof (scrape_scholar_extracted topic n w) as Hall.
  rewrite Forall_forall in Hall. destruct (Hall p Hin) as [item ->].
  repeat split; try discriminate. apply extract_year_text.
Qed.

Lemma scraped_record_shape_witness :
  title (extract_paper sample_item) <> None
  /\ authors (extract_paper sample_item) <> None
  /\ abstract (extract_paper sample_item) <> None
  /\ has_pdf (extract_paper sample_item) <> None
  /\ exists y, year (extract_paper sample_item) = Some y
               /\ (y = "N/A" \/ is_year_text y = true).
Proof.
  apply (@scraped_record_shape ten_per_page "graphs" 1 tt).
  vm_compute. left. reflexivity.
Defined.

(** ** More on the scraper *)

Section ScraperMore.
Context `{Upstream}.

Lemma scrape_pages_trace topic n len :
  forall a all_papers w,
  exists (k : nat) (last : bool),
    trace (scrape_pages topic n (List.map Z.of_nat (seq a len)) all_papers w)
    = (page_rounds topic (Z.of_nat a) k
       ++ last_request topic (Z.of_nat (a + k)) last)%list
    /\ (k + (if last then 1 else 0) <= len)%nat
    /\ (1 <= len -> 1 <= k + (if last then 1 else 0))%nat.
Proof.
  induction len as [|len IH]; intros a all_papers w.
  - exists O, false. simpl. repeat split; auto; lia.
  - cbn [seq List.map scrape_pages]. unfold bind, http_get, trace.
    destruct (requests_get _ 15 w) as [[e|resp] w1].
    { exists O, true. rewrite Nat.add_0_r. simpl. repeat split; auto; lia. }
    destruct (find_results (resp_text resp)) as [|item items].
    { exists O, true. rewrite Nat.add_0_r. simpl. repeat split; auto; lia. }
    set (all' := (all_papers ++ List.map extract_paper (item :: items))%list).
    destruct (Z.of_nat (List.length all') >=? n).
    { exists O, true. rewrite Nat.add_0_r. simpl. repeat split; auto; lia. }
    unfold sleep.
    destruct (IH (S a) all' w1) as (k & last & Ht & Hk & _).
    unfold trace in Ht.
    destruct (scrape_pages topic n (List.map Z.of_nat (seq (S a) len)) all' w1)
      as [[v w2] t2].
    cbn [snd] in Ht |- *. exists (S k), last. rewrite Ht.
    cbn [page_rounds app].
    replace (Z.of_nat a + 1) with (Z.of_nat (S a)) by lia.
    replace (a + S k)%nat with (S a + k)%nat by lia.
    repeat split; auto; lia.
Qed.

(** X8: What [scrape_scholar] does to the outside: it asks for the pages in
    order (offsets 0, 10, 20, ...), each with a timeout of 15, with the
    delay of [REQUEST_DELAY] after every page it goes on from; it asks for
    at most [n // 10 + 1] pages, and for at least one when the count
    is not negative. *)
Theorem scrape_trace_paced (topic : string) (n : Z) (w : World) :
  exists (k : nat) (last : bool),
    trace (scrape_scholar topic n w)
    = (page_rounds topic 0 k ++ last_request topic (Z.of_nat k) last)%list
    /\ Z.of_nat k + (if last then 1 else 0) <= Z.max 0 (n / 10 + 1)
    /\ (0 <= n -> 1 <= Z.of_nat k + (if last then 1 else 0)).
Proof.
  destruct (scrape_pages_trace topic n (Z.to_nat (n / 10 + 1)) 0 [] w)
    as (k & last & Ht & Hk & H1).
  exists k, last. unfold scrape_scholar, bind, trace in *. fold (Py.range (n / 10 + 1)) in Ht.
  destruct (scrape_pages topic n (Py.range (n / 10 + 1)) [] w) as [[v w1] t1].
  cbn [snd ret] in *. rewrite app_nil_r, Ht. split; [reflexivity|].
  split.
  - destruct last; lia.
  - intros Hn. assert (0 <= n / 10) by (apply Z.div_pos; lia).
    assert (1 <= Z.to_nat (n / 10 + 1))%nat by lia.
    specialize (H1 ltac:(assumption)). destruct last; lia.
Qed.

Lemma range_pos z : 0 < z -> exists rest, Py.range z = 0 :: rest.
Proof.
  intros Hz. unfold Py.range.
  destruct (Z.to_nat z) as [|m] eqn:E; [lia|].
  eexists. reflexivity.
Qed.


(** X10: A first page with at least [n] result blocks is enough: one request,
    no delay, and the first [n] papers of the page, in page order. *)
Theorem scrape_first_page_enough (topic : string) (n : Z) (w w' : World)
    (resp : response) :
  0 <= n ->
  requests_get (build_scholar_url topic 0) 15 w = (inr resp, w') ->
  find_results (resp_text resp) <> [] ->
  n <= Z.of_nat (List.length (find_results (resp_text resp))) ->
  scrape_scholar topic n w
  = (firstn (Z.to_nat n) (List.map extract_paper (find_results (resp_text resp))),
     w', [Get (build_scholar_url topic 0) 15]).
Proof.
  intros Hn Hr Hne Hlen.
  assert (Hpos : 0 < n / 10 + 1).
  { assert (0 <= n / 10) by (apply Z.div_pos; lia). lia. }
  destruct (range_pos _ Hpos) as [rest Hrange].
  unfold scrape_scholar. rewrite Hrange. cbn [scrape_pages].
  change (0 * 10) with 0.
  unfold bind, http_get. rewrite Hr.
  destruct (find_results (resp_text resp)) as [|item items] eqn:Ef;
    [congruence|].
  cbn [app].
  assert (Hge : (Z.of_nat (List.length (List.map extract_paper (item :: items)))
                 >=? n) = true).
  { rewrite List.length_map. apply Z.geb_le. exact Hlen. }
  rewrite Hge. unfold ret. cbn [fst snd app].
  unfold Py.slice_to. destruct (Z.leb_spec 0 n); [reflexivity|lia].
Qed.

End ScraperMore.


Lemma scrape_first_page_enough_witness :
  @scrape_scholar ten_per_page "graphs" 3 tt
  = (firstn 3 (List.map extract_paper (List.repeat sample_item 10)),
     tt, [Get (build_scholar_url "graphs" 0) 15]).
Proof.
  apply (@scrape_first_page_enough ten_per_page "graphs" 3 tt tt
           {| resp_text := "page"; resp_content := [] |}).
  - lia.
  - reflexivity.
  - discriminate.
  - simpl. lia.
Defined.

Lemma scrape_trace_paced_witness :
  exists (k : nat) (last : bool),
    trace (@scrape_scholar ten_per_page "graphs" 25 tt)
    = (page_rounds "graphs" 0 k ++ last_request "graphs" (Z.of_nat k) last)%list
    /\ Z.of_nat k + (if last then 1 else 0) <= 3
    /\ 1 <= Z.of_nat k + (if last then 1 else 0).
Proof.
  destruct (@scrape_trace_paced ten_per_page "graphs" 25 tt)
    as (k & last & Ht & Hk & H1).
  exists k, last. split; [exact Ht|]. split; [exact Hk|]. apply H1. lia.
Defined.

(** ** More on [download_single] and [search] *)

Section RoutesMore.
Context `{Upstream}.
Import Py PyFacts.

(** X17: A file that [download_single] serves is the fetched payload as it
    came, it starts with the magic bytes, its name is the sanitized title
    with the extension, and one request was made for it. *)
Theorem download_single_serves_pdf_only
    (url title : option string) (w : World)
    (content : list byte) (filename : string) :
  value (download_single url title w) = PdfAttachment content filename ->
  is_pdf content = true
  /\ filename = (sanitize (get_default title "paper") ++ ".pdf")%string
  /\ exists u resp w',
       url = Some u /\ u <> EmptyString
       /\ requests_get u 30 w = (inr resp, w')
       /\ resp_content resp = content
       /\ trace (download_single url title w) = [Get u 30].
Proof.
  unfold download_single. cbv zeta.
  destruct url as [[|c u]|]; cbn [truthy nonempty negb get_default];
    try discriminate.
  unfold bind, http_get, value, trace.
  destruct (requests_get (String c u) 30 w) as [[e|resp] w'] eqn:Hr;
    cbn [fst snd ret]; [discriminate|].
  destruct (is_pdf (resp_content resp)) eqn:Hp; cbn [negb fst snd ret];
    [|discriminate].
  destruct (has_newline _); unfold ret; cbn [fst snd app]; [discriminate|].
  intros [= <- <-].
  split; [exact Hp|]. split; [reflexivity|].
  exists (String c u), resp, w'. repeat split; auto. discriminate.
Qed.

(** X18: The errors of [download_single]: without a URL the client error and
    no request; when the request raises, the server error with the text
    of the exception; no other status than 400 and 500; and in every run at
    most one request and no delay. *)
Theorem download_single_outcomes (url title : option string) (w : World) :
  (truthy url = false ->
   download_single url title w = (JsonError 400 "URL is required", w, []))
  /\ (forall u e w',
         url = Some u -> u <> EmptyString ->
         requests_get u 30 w = (inl e, w') ->
         download_single url title w
         = (JsonError 500 ("Download failed: " ++ e), w', [Get u 30]))
  /\ (forall status msg,
         value (download_single url title w) = JsonError status msg ->
         status = 400 \/ status = 500)
  /\ sleeps (trace (download_single url title w)) = []
  /\ (List.length (gets (trace (download_single url title w))) <= 1)%nat.
Proof.
  unfold download_single. cbv zeta.
  destruct (truthy url) eqn:Hu; cbn [negb].
  - destruct url as [[|c u]|]; try discriminate Hu. cbn [get_default].
    split; [discriminate|].
    unfold bind, http_get, value, trace.
    destruct (requests_get (String c u) 30 w) as [[e|resp] w'] eqn:Hr.
    + unfold ret. cbn [fst snd app gets sleeps List.length].
      split; [|split; [|split; [reflexivity|lia]]].
      * intros u0 e0 w0 [= <-] _ Hr0. rewrite Hr in Hr0.
        injection Hr0 as <- <-. reflexivity.
      * intros status msg [= <- _]. now right.
    + destruct (is_pdf (resp_content resp)); cbn [negb];
        [destruct (has_newline _)|]; unfold ret;
        cbn [fst snd app gets sleeps List.length];
        (split; [|split; [|split; [reflexivity|lia]]]).
      * intros u0 e0 w0 [= <-] _ Hr0. rewrite Hr in Hr0. discriminate Hr0.
      * intros status msg [= <- _]. now right.
      * intros u0 e0 w0 [= <-] _ Hr0. rewrite Hr in Hr0. discriminate Hr0.
      * intros status msg Hv. discriminate Hv.
      * intros u0 e0 w0 [= <-] _ Hr0. rewrite Hr in Hr0. discriminate Hr0.
      * intros status msg [= <- _]. now left.
  - unfold ret, value, trace. cbn [fst snd gets sleeps List.length].
    split; [reflexivity|]. split; [|split; [|split; [reflexivity|lia]]].
    + intros u e w' -> Hne _. destruct u; [congruence|discriminate Hu].
    + intros status msg [= <- _]. now left.
Qed.




(** X20: When [search] answers with papers, the count is the length of the
    list, between 1 and [MAX_RESULTS] and at most the count asked for (10
    when none is given), and the topic is the stripped one. *)
Theorem search_papers_counted (topic : option string) (num : option Z)
    (w : World) (papers : list paper) (count : Z) (topic' : string) :
  value (search topic num w) = JsonPapers papers count topic' ->
  count = Z.of_nat (List.length papers)
  /\ 1 <= count <= MAX_RESULTS
  /\ count <= match num with Some n => n | None => 10 end
  /\ topic' = strip (get_default topic "KNN nanorods")
  /\ topic' <> EmptyString.
Proof.
  unfold search. cbv zeta.
  set (t := strip (get_default topic "KNN nanorods")).
  set (n := match num with Some n => n | None => 10 end).
  destruct (nonempty t) eqn:Ht; cbn [negb];
    [|unfold value, ret; cbn [fst]; discriminate].
  unfold bind, value.
  pose proof (scrape_scholar_length t (Z.min n MAX_RESULTS) w) as Hl.
  unfold value in Hl.
  destruct (scrape_scholar t (Z.min n MAX_RESULTS) w) as [[[|p ps] w1] t1];
    unfold ret; cbn [fst] in Hl |- *; [discriminate|].
  intros [= <- <- <-]. cbn [List.length] in Hl |- *.
  repeat split; try lia.
  intros ->. discriminate Ht.
Qed.


End RoutesMore.


Lemma download_single_serves_pdf_only_witness :
  is_pdf pdf_bytes = true
  /\ "Good_one.pdf" = (sanitize (get_default (Some "Good one") "paper") ++ ".pdf")%string
  /\ exists u resp w',
       Some "http://h/a.pdf" = Some u /\ u <> EmptyString
       /\ @requests_get file_host u 30 tt = (inr resp, w')
       /\ resp_content resp = pdf_bytes
       /\ trace (@download_single file_host (Some "http://h/a.pdf")
                   (Some "Good one") tt)
          = [Get u 30].
Proof.
  apply (@download_single_serves_pdf_only file_host (Some "http://h/a.pdf")
           (Some "Good one") tt pdf_bytes "Good_one.pdf").
  reflexivity.
Defined.

Lemma download_single_outcomes_witness :
  @download_single file_host None None tt
  = (JsonError 400 "URL is required", tt, [])
  /\ @download_single file_host (Some "http://h/c.pdf") None tt
     = (JsonError 500 "Download failed: 404 Client Error", tt,
        [Get "http://h/c.pdf" 30]).
Proof.
  split.
  - apply (proj1 (@download_single_outcomes file_host None None tt)).
    reflexivity.
  - apply (proj1 (proj2 (@download_single_outcomes file_host
                           (Some "http://h/c.pdf") None tt))
             "http://h/c.pdf" "404 Client Error" tt);
      try reflexivity. discriminate.
Defined.

Lemma search_papers_counted_witness :
  exists papers count topic',
    value (@search ten_per_page (Some " graphs ") (Some 100) tt)
    = JsonPapers papers count topic'
    /\ count = Z.of_nat (List.length papers)
    /\ 1 <= count <= MAX_RESULTS
    /\ count <= 100
    /\ topic' = "graphs"
    /\ topic' <> EmptyString.
Proof.
  do 3 eexists. split; [reflexivity|].
  apply (@search_papers_counted ten_per_page (Some " graphs ") (Some 100) tt).
  reflexivity.
Defined.


(** ** More on [build_scholar_url] *)

Section UrlMore.
Import Py PyFacts.

Lemma all_chars_app p s1 s2 :
  all_chars p (s1 ++ s2) = (all_chars p s1 && all_chars p s2)%bool.
Proof.
  induction s1 as [|c s1 IH]; simpl; auto. now rewrite IH, andb_assoc.
Qed.

Lemma hex_digit_safe n : Url.always_safe (Url.hex_digit n) = true.
Proof.
  unfold Url.hex_digit.
  generalize (N.to_nat n). intros k.
  do 16 (destruct k as [|k]; [reflexivity|]).
  destruct k; reflexivity.
Qed.

Lemma percent_url_chars b : all_chars url_char (Url.percent b) = true.
Proof.
  unfold Url.percent. cbn [all_chars]. unfold url_char at 2 3.
  now rewrite !hex_digit_safe.
Qed.

Lemma quote_plus_char_url_chars c :
  all_chars url_char (Url.quote_plus_char c) = true.
Proof.
  unfold Url.quote_plus_char.
  destruct (Url.always_safe c) eqn:Es.
  - cbn [all_chars]. unfold url_char. now rewrite Es.
  - destruct (Ascii.eqb c " "); [reflexivity|].
    unfold Url.utf8. destruct (N.ltb (code c) 128);
      cbn [List.map String.concat];
      rewrite ?all_chars_app, !percent_url_chars; reflexivity.
Qed.

Lemma quote_plus_url_chars (s : string) :
  all_chars url_char (Url.quote_plus s) = true.
Proof.
  induction s as [|c s IH]; [reflexivity|].
  cbn [Url.quote_plus]. now rewrite all_chars_app, quote_plus_char_url_chars.
Qed.

Lemma quote_plus_unreserved (s : string) :
  all_chars Url.always_safe s = true -> Url.quote_plus s = s.
Proof.
  induction s as [|c s IH]; [reflexivity|].
  cbn [all_chars Url.quote_plus]. intros [Hc Hs]%andb_prop.
  unfold Url.quote_plus_char. rewrite Hc, (IH Hs). reflexivity.
Qed.

Lemma unquote_head_quote c r :
  unquote_head (Url.quote_plus_char c ++ r) = Some (c, r).
Proof.
  destruct c as [[] [] [] [] [] [] [] []]; reflexivity.
Qed.

Lemma quote_plus_cut s1 :
  forall s2 r1 r2,
    (r1 = EmptyString \/ exists r, r1 = String "&" r) ->
    (r2 = EmptyString \/ exists r, r2 = String "&" r) ->
    Url.quote_plus s1 ++ r1 = Url.quote_plus s2 ++ r2 ->
    s1 = s2 /\ r1 = r2.
Proof.
  assert (Hend : forall r, (r = EmptyString \/ exists r', r = String "&" r') ->
                           unquote_head r = None).
  { intros r [->|[r' ->]]; reflexivity. }
  assert (Hassoc : forall c s r,
             Url.quote_plus (String c s) ++ r
             = Url.quote_plus_char c ++ (Url.quote_plus s ++ r)).
  { intros c s r. cbn [Url.quote_plus].
    generalize (Url.quote_plus_char c) (Url.quote_plus s). intros a b.
    induction a as [|d a IH]; simpl; [reflexivity|]. now rewrite IH. }
  induction s1 as [|c1 s1 IH]; intros [|c2 s2] r1 r2 H1 H2 Heq.
  - split; [reflexivity|exact Heq].
  - exfalso. rewrite Hassoc in Heq. cbn [Url.quote_plus String.append] in Heq.
    apply (f_equal unquote_head) in Heq.
    rewrite unquote_head_quote, (Hend r1 H1) in Heq. discriminate Heq.
  - exfalso. rewrite Hassoc in Heq. cbn [Url.quote_plus String.append] in Heq.
    apply (f_equal unquote_head) in Heq.
    rewrite unquote_head_quote, (Hend r2 H2) in Heq. discriminate Heq.
  - rewrite !Hassoc in Heq. apply (f_equal unquote_head) in Heq.
    rewrite !unquote_head_quote in Heq. injection Heq as <- Heq.
    destruct (IH s2 r1 r2 H1 H2 Heq) as [<- <-]. split; reflexivity.
Qed.

Lemma str_of_Z_injective a b : str_of_Z a = str_of_Z b -> a = b.
Proof.
  unfold str_of_Z. intros Heq.
  assert (Hnn : forall z, Z.to_int z <> Decimal.Pos Decimal.Nil
                          /\ Z.to_int z <> Decimal.Neg Decimal.Nil).
  { intros [|p|p]; split; try discriminate; intros [= Hp];
      now apply DecimalPos.Unsigned.to_uint_nonnil in Hp. }
  apply (f_equal NilZero.int_of_string) in Heq.
  rewrite !NilZero.isi in Heq by apply Hnn.
  injection Heq as Heq. apply (f_equal Z.of_int) in Heq.
  now rewrite !DecimalZ.of_to in Heq.
Qed.

End UrlMore.

Section UrlShape.

Lemma append_cancel p a b : (p ++ a)%string = (p ++ b)%string -> a = b.
Proof.
  induction p as [|c p IH]; simpl; [auto|]. intros [= Heq]. auto.
Qed.

Lemma build_scholar_url_shape topic start :
  build_scholar_url topic start
  = ("https://scholar.google.com/scholar?q="
     ++ (Url.quote_plus topic
         ++ String "&" ("start="
                        ++ (Url.quote_plus (Py.str_of_Z start)
                            ++ String "&" "hl=en&as_sdt=0%2C5"))))%string.
Proof.
  unfold build_scholar_url, Url.urlencode.
  cbn [List.map Py.join fst snd].
  change (Url.quote_plus "q") with "q".
  change (Url.quote_plus "start") with "start".
  change (Url.quote_plus "hl") with "hl".
  change (Url.quote_plus "as_sdt") with "as_sdt".
  change (Url.quote_plus "en") with "en".
  change (Url.quote_plus "0,5") with "0%2C5".
  assert (Hassoc : forall a b c : string, ((a ++ b) ++ c = a ++ (b ++ c))%string).
  { intros a b c. induction a as [|d a IH]; simpl; [reflexivity|]. now rewrite IH. }
  generalize (Url.quote_plus topic) (Url.quote_plus (Py.str_of_Z start)).
  intros qt qs. cbn [String.append]. rewrite ?Hassoc. reflexivity.
Qed.

(** X24: The page URL determines the topic and the offset: two different
    queries, or two different pages of one query, never share a URL. *)
Theorem build_scholar_url_injective (topic1 topic2 : string) (start1 start2 : Z) :
  build_scholar_url topic1 start1 = build_scholar_url topic2 start2 ->
  topic1 = topic2 /\ start1 = start2.
Proof.
  rewrite !build_scholar_url_shape. intros Heq%append_cancel.
  apply quote_plus_cut in Heq as [Ht Heq]; [|right; eexists; reflexivity ..].
  split; [exact Ht|].
  injection Heq as Heq.
  apply quote_plus_cut in Heq as [Hs _]; [|right; eexists; reflexivity ..].
  now apply str_of_Z_injective.
Qed.

End UrlShape.

Lemma build_scholar_url_injective_witness : "graphs" = "graphs" /\ 10 = 10.
Proof.
  apply (build_scholar_url_injective "graphs" "graphs" 10 10). reflexivity.
Defined.

Section UrlParams.
Import Py PyFacts.

Lemma count_char_app c s1 s2 :
  count_char c (s1 ++ s2) = (count_char c s1 + count_char c s2)%nat.
Proof.
  induction s1 as [|d s1 IH]; simpl; auto. rewrite IH. lia.
Qed.

Lemma count_char_none p c s :
  all_chars p s = true -> p c = false -> count_char c s = O.
Proof.
  intros Hs Hc. induction s as [|d s IH]; [reflexivity|].
  cbn [all_chars count_char] in *. apply andb_prop in Hs as [Hd Hs].
  rewrite (IH Hs). destruct (Ascii.eqb_spec d c) as [->|]; [congruence|reflexivity].
Qed.

Lemma string_of_uint_safe d :
  all_chars Url.always_safe (NilEmpty.string_of_uint d) = true.
Proof. induction d; simpl; auto. Qed.

Lemma str_of_Z_safe z : all_chars Url.always_safe (str_of_Z z) = true.
Proof.
  unfold str_of_Z, NilZero.string_of_int, NilZero.string_of_uint.
  destruct (Z.to_int z) as [d|d]; destruct d;
    try reflexivity; try apply string_of_uint_safe;
    cbn [all_chars]; rewrite string_of_uint_safe; reflexivity.
Qed.

(** X22: Whatever the topic, the page URL has its four parameters and no
    more: three separators, four equal signs, one question mark, and no
    space or fragment sign; the topic cannot add a parameter. *)
Theorem build_scholar_url_params (topic : string) (start : Z) :
  count_char "&" (build_scholar_url topic start) = 3%nat
  /\ count_char "=" (build_scholar_url topic start) = 4%nat
  /\ count_char "?" (build_scholar_url topic start) = 1%nat
  /\ count_char " " (build_scholar_url topic start) = 0%nat
  /\ count_char "#" (build_scholar_url topic start) = 0%nat.
Proof.
  rewrite build_scholar_url_shape.
  assert (Hq : forall c s, url_char c = false -> count_char c (Url.quote_plus s) = O).
  { intros c s Hc. exact (count_char_none url_char c _ (quote_plus_url_chars s) Hc). }
  repeat split;
    rewrite count_char_app, (count_char_app _ (Url.quote_plus topic)), Hq
      by reflexivity;
    cbn [count_char Nat.add];
    rewrite (count_char_app _ "start="), (count_char_app _ (Url.quote_plus _)), Hq
      by reflexivity;
    reflexivity.
Qed.

(** X23: For a topic of unreserved characters (letters, digits, underscore,
    dot, hyphen, tilde) the page URL carries the topic as it is, and the
    offset in plain decimal. *)
Theorem build_scholar_url_plain (topic : string) (start : Z) :
  all_chars Url.always_safe topic = true ->
  build_scholar_url topic start
  = ("https://scholar.google.com/scholar?q=" ++ topic
     ++ "&start=" ++ str_of_Z start ++ "&hl=en&as_sdt=0%2C5")%string.
Proof.
  intros Ht. rewrite build_scholar_url_shape.
  rewrite (quote_plus_unreserved topic Ht).
  rewrite (quote_plus_unreserved _ (str_of_Z_safe start)).
  reflexivity.
Qed.

End UrlParams.

Lemma build_scholar_url_plain_witness :
  build_scholar_url "KNN-nanorods_2019" 20
  = "https://scholar.google.com/scholar?q=KNN-nanorods_2019&start=20&hl=en&as_sdt=0%2C5".
Proof. apply (build_scholar_url_plain "KNN-nanorods_2019" 20). reflexivity. Defined.

(** ** More on [download_zip] *)

Section ZipMore.
Context `{Upstream}.
Import Py PyFacts.

Lemma zip_step_observed i p st w :
  gets (trace (zip_step i p st w))
  = List.map (fun u => (u, 30)) (wanted_urls [p])
  /\ exists new,
       entries (value (zip_step i p st w)) = (entries st ++ new)%list
       /\ sleeps (trace (zip_step i p st w)) = List.repeat 1 (List.length new)
       /\ (List.length new <= List.length (gets (trace (zip_step i p st w))))%nat
       /\ Forall (fun e => exists t, entry_title [p] t
                                     /\ fst e = zip_name (sanitize t ++ ".pdf"))
            new.
Proof.
  unfold wanted_urls. cbn [flat_map]. rewrite app_nil_r.
  destruct (truthy (download_url p)) eqn:Hu.
  - destruct (download_url p) as [url|] eqn:Eu; [|discriminate].
    assert (Hne : url <> EmptyString) by (intros ->; discriminate).
    cbn [get_default List.map].
    destruct (requests_get url 30 w) as [[e|resp] w'] eqn:Hr.
    + rewrite (zip_step_raise i p st w url e w' Eu Hne Hr).
      split; [reflexivity|]. exists []. cbn. rewrite app_nil_r.
      repeat split; auto; lia.
    + destruct (is_pdf (resp_content resp)) eqn:Hp.
      * destruct (zip_name (sanitize (get_default (title p)
                                        ("paper_" ++ str_of_Z (i + 1)))
                            ++ ".pdf")) as [|c name] eqn:En.
        -- rewrite (zip_step_no_name i p st w url resp w' Eu Hne Hr Hp En).
           split; [reflexivity|]. exists []. cbn. rewrite app_nil_r.
           repeat split; auto; lia.
        -- rewrite (zip_step_pdf i p st w url resp w' Eu Hne Hr Hp)
             by (rewrite En; discriminate).
           split; [reflexivity|]. eexists [_]. cbn.
           repeat split; auto.
           constructor; [|constructor].
           exists (get_default (title p) ("paper_" ++ str_of_Z (i + 1))).
           split; [|reflexivity]. unfold entry_title.
           destruct (title p) as [t|] eqn:Et; cbn [get_default].
           ++ left. exists p. split; [now left|exact Et].
           ++ right. now exists (i + 1).
      * rewrite (zip_step_not_pdf i p st w url resp w' Eu Hne Hr Hp).
        split; [reflexivity|]. exists []. cbn. rewrite app_nil_r.
        repeat split; auto; lia.
  - rewrite (zip_step_no_url i p st w Hu).
    split; [reflexivity|]. exists []. cbn. rewrite app_nil_r.
    repeat split; auto; lia.
Qed.

Lemma gets_app t1 t2 : gets (t1 ++ t2) = (gets t1 ++ gets t2)%list.
Proof.
  induction t1 as [|[url timeout|seconds] t1 IH]; simpl; auto. now rewrite IH.
Qed.

Lemma sleeps_app t1 t2 : sleeps (t1 ++ t2) = (sleeps t1 ++ sleeps t2)%list.
Proof.
  induction t1 as [|[url timeout|seconds] t1 IH]; simpl; auto. now rewrite IH.
Qed.

Lemma entry_title_incl papers papers' t :
  (forall p, In p papers -> In p papers') ->
  entry_title papers t -> entry_title papers' t.
Proof.
  intros Hin [(p & Hp & Ht)|Hk]; [left|right; exact Hk].
  exists p. split; auto.
Qed.

Lemma zip_loop_observed papers :
  forall i st w,
    gets (trace (zip_loop i papers st w))
    = List.map (fun u => (u, 30)) (wanted_urls papers)
    /\ exists new,
         entries (value (zip_loop i papers st w)) = (entries st ++ new)%list
         /\ sleeps (trace (zip_loop i papers st w))
            = List.repeat 1 (List.length new)
         /\ (List.length new
             <= List.length (gets (trace (zip_loop i papers st w))))%nat
         /\ Forall (fun e => exists t, entry_title papers t
                                       /\ fst e = zip_name (sanitize t ++ ".pdf"))
              new.
Proof.
  induction papers as [|p papers IH]; intros i st w.
  - split; [reflexivity|]. exists []. cbn. rewrite app_nil_r.
    repeat split; auto; lia.
  - cbn [zip_loop]. unfold bind, value, trace.
    pose proof (zip_step_observed i p st w) as Hs. unfold value, trace in Hs.
    destruct (zip_step i p st w) as [[st1 w1] t1]. cbn [fst snd] in Hs.
    destruct Hs as (Hg1 & new1 & He1 & Hs1 & Hl1 & Hn1).
    specialize (IH (i + 1) st1 w1). unfold value, trace in IH.
    destruct (zip_loop (i + 1) papers st1 w1) as [[st2 w2] t2].
    cbn [fst snd] in IH |- *.
    destruct IH as (Hg2 & new2 & He2 & Hs2 & Hl2 & Hn2).
    split.
    + rewrite gets_app, Hg1, Hg2, <- map_app. f_equal.
      unfold wanted_urls. cbn [flat_map]. now rewrite app_nil_r.
    + exists (new1 ++ new2)%list.
      rewrite He2, He1, <- app_assoc, sleeps_app, Hs1, Hs2, gets_app.
      rewrite !length_app, repeat_app. repeat split; auto; [lia|].
      apply Forall_app. split.
      * eapply Forall_impl; [|exact Hn1]. cbv beta.
        intros e (t & Ht & He). exists t. split; [|exact He].
        eapply entry_title_incl; [|exact Ht].
        intros q [<-|[]]. now left.
      * eapply Forall_impl; [|exact Hn2]. cbv beta.
        intros e (t & Ht & He). exists t. split; [|exact He].
        eapply entry_title_incl; [|exact Ht]. intros q Hq. now right.
Qed.

Lemma filter_forallb {A} (f : A -> bool) l :
  forallb f l = true -> List.filter f l = l.
Proof.
  induction l as [|x l IH]; [reflexivity|]. cbn [forallb List.filter].
  intros [Hx Hl]%andb_prop. now rewrite Hx, IH.
Qed.

(** A run on a list that is not empty: the loop, then the answer. *)
Lemma download_zip_run papers topic w :
  papers <> [] ->
  exists st w1 t1,
    zip_loop 0 papers zip_init w = (st, w1, t1)
    /\ download_zip papers topic w
       = (if has_newline (sanitize (get_default topic "research_papers"))
          then InternalServerError
          else
            ZipAttachment
              (entries st
               ++ [("metadata_report.txt",
                    ZText (metadata_text (get_default topic "research_papers")
                             papers st))])%list
              (sanitize (get_default topic "research_papers") ++ "_papers.zip")%string,
          w1, t1).
Proof.
  intros Hne. rewrite (download_zip_nonempty papers topic w Hne).
  unfold bind. destruct (zip_loop 0 papers zip_init w) as [[st w1] t1].
  exists st, w1, t1. split; [reflexivity|].
  rewrite has_newline_app. change (has_newline "_papers.zip") with false.
  rewrite orb_false_r.
  destruct (has_newline _); unfold ret; cbn [fst snd]; now rewrite app_nil_r.
Qed.

Lemma last_char_app x c s :
  last_char (x ++ String c s) = last_char (String c s).
Proof.
  induction x as [|d x IH]; [reflexivity|].
  cbn [String.append]. rewrite <- IH.
  destruct x; reflexivity.
Qed.

Lemma pdf_named_not_report e :
  pdf_named e -> entry_named "metadata_report.txt" e = false.
Proof.
  intros [t Ht]. unfold entry_named. apply String.eqb_neq. intros Heq.
  rewrite Ht in Heq. apply (f_equal last_char) in Heq.
  rewrite last_char_app in Heq. discriminate Heq.
Qed.

Lemma all_chars_filter_keep (q p : ascii -> bool) s :
  all_chars q s = true -> all_chars q (filter p s) = true.
Proof.
  induction s as [|c s IH]; [reflexivity|]. cbn [all_chars filter].
  intros [Hc Hs]%andb_prop. destruct (p c); cbn [all_chars]; auto.
  now rewrite Hc, IH.
Qed.

Lemma sanitize_no_nul t : no_nul t = true -> no_nul (sanitize t) = true.
Proof.
  unfold no_nul, sanitize, re_sub_forbidden, strip, replace. intros Ht.
  apply all_chars_take.
  apply (all_chars_map (fun c => negb (N.eqb (code c) 0))).
  - intros c Hc. destruct (Ascii.eqb c " "); [reflexivity|exact Hc].
  - now apply all_chars_rstrip, all_chars_lstrip, all_chars_filter_keep.
Qed.

Lemma default_title_no_nul k : no_nul ("paper_" ++ str_of_Z k) = true.
Proof.
  unfold no_nul. rewrite all_chars_app. apply andb_true_intro.
  split; [reflexivity|].
  pose proof (str_of_Z_safe k) as Hs.
  revert Hs. generalize (str_of_Z k). intros s.
  induction s as [|c s IH]; [reflexivity|]. cbn [all_chars].
  intros [Hc Hs]%andb_prop. rewrite (IH Hs), andb_true_r.
  destruct (N.eqb_spec (code c) 0) as [E|]; [|reflexivity].
  unfold code in E. rewrite <- (ascii_N_embedding c), E in Hc. discriminate Hc.
Qed.

(** X11: [download_zip] asks once for every download URL that is not empty,
    in the order of the records and with a timeout of 30, and for nothing
    else: no retry, and no request for a record without a URL. *)
Theorem download_zip_requests (papers : list paper) (topic : option string)
    (w : World) :
  gets (trace (download_zip papers topic w))
  = List.map (fun u => (u, 30)) (wanted_urls papers).
Proof.
  destruct papers as [|p papers]; [reflexivity|].
  destruct (download_zip_run (p :: papers) topic w) as (st & w1 & t1 & Hl & ->);
    [discriminate|].
  pose proof (proj1 (zip_loop_observed (p :: papers) 0 zip_init w)) as Hg.
  rewrite Hl in Hg. exact Hg.
Qed.

(** X12: the delays of a run are of one unit each, there are no more of
    them than requests, and when the answer is an archive there are as
    many as the archive has PDF entries. *)
Theorem download_zip_delays (papers : list paper) (topic : option string)
    (w : World) :
  exists k,
    sleeps (trace (download_zip papers topic w)) = List.repeat 1 k
    /\ (k <= List.length (gets (trace (download_zip papers topic w))))%nat
    /\ forall archive name,
         value (download_zip papers topic w) = ZipAttachment archive name ->
         k = List.length (List.filter is_pdf_entry archive).
Proof.
  destruct papers as [|p papers].
  { exists O. repeat split; auto. intros archive name Hv. discriminate Hv. }
  destruct (download_zip_run (p :: papers) topic w) as (st & w1 & t1 & Hl & ->);
    [discriminate|].
  pose proof (zip_loop_observed (p :: papers) 0 zip_init w)
    as (_ & new & He & Hs & Hle & _).
  pose proof (zip_loop_effect (p :: papers) 0 zip_init w)
    as (_ & new' & He' & _ & _ & Hp).
  cbv zeta in He'. rewrite Hl in He, Hs, Hle, He'.
  unfold value, trace in *. cbn [fst snd entries zip_init app] in *.
  assert (Hnew : new' = new) by congruence. rewrite Hnew in Hp.
  exists (List.length new). split; [exact Hs|]. split; [exact Hle|].
  intros archive name Hv.
  destruct (has_newline _); [discriminate Hv|].
  injection Hv as <- _. rewrite He, filter_app.
  cbn [List.filter is_pdf_entry snd]. rewrite app_nil_r.
  now rewrite (filter_forallb _ _ Hp).
Qed.

(** X13: for papers whose titles have no NUL character and a topic whose
    sanitized form has no carriage return or line feed, the archive has
    exactly one entry of the name of the report, and it is the last one:
    every PDF entry has the name of a sanitized title with the extension. *)
Theorem download_zip_one_report (papers : list paper) (topic : option string)
    (w : World) :
  papers <> [] ->
  has_newline (sanitize (get_default topic "research_papers")) = false ->
  forallb title_no_nul papers = true ->
  exists archive name report,
    value (download_zip papers topic w) = ZipAttachment archive name
    /\ List.last archive (EmptyString, ZText EmptyString)
       = ("metadata_report.txt", ZText report)
    /\ Forall pdf_named (removelast archive)
    /\ List.length (List.filter (entry_named "metadata_report.txt") archive)
       = 1%nat.
Proof.
  intros Hne Hnl Hnul.
  destruct (download_zip_run papers topic w Hne) as (st & w1 & t1 & Hl & ->).
  rewrite Hnl.
  pose proof (zip_loop_observed papers 0 zip_init w) as (_ & new & He & _ & _ & Hn).
  rewrite Hl in He. unfold value in *. cbn [fst snd entries zip_init app] in *.
  assert (Hnamed : Forall pdf_named new).
  { eapply Forall_impl; [|exact Hn]. cbv beta.
    intros e (t & Ht & Hname). exists t. rewrite Hname.
    apply zip_name_id. fold (no_nul (sanitize t ++ ".pdf")).
    unfold no_nul. rewrite all_chars_app. fold (no_nul (sanitize t)).
    rewrite sanitize_no_nul; [reflexivity|].
    destruct Ht as [(q & Hq & Hqt)|[k ->]]; [|apply default_title_no_nul].
    rewrite forallb_forall in Hnul. specialize (Hnul q Hq).
    unfold title_no_nul in Hnul. now rewrite Hqt in Hnul. }
  do 3 eexists. split; [reflexivity|]. split; [apply last_last|].
  rewrite He, removelast_last. split; [exact Hnamed|].
  rewrite filter_app, length_app. cbn.
  assert (Hnone : List.filter (entry_named "metadata_report.txt") new = []).
  { clear - Hnamed. induction Hnamed as [|e new He Hn IH]; [reflexivity|].
    cbn [List.filter]. now rewrite (pdf_named_not_report e He). }
  now rewrite Hnone.
Qed.

(** X14: the three answers of [download_zip]: for the empty list the
    client error, with nothing asked of the outside; for a list that is
    not empty the server error exactly when the sanitized topic has a
    carriage return or a line feed, and otherwise the archive, named
    after the sanitized topic. *)
Theorem download_zip_outcomes (papers : list paper) (topic : option string)
    (w : World) :
  (papers = [] ->
   download_zip papers topic w = (JsonError 400 "No papers provided", w, []))
  /\ (papers <> [] ->
      has_newline (sanitize (get_default topic "research_papers")) = true ->
      value (download_zip papers topic w) = InternalServerError)
  /\ (papers <> [] ->
      has_newline (sanitize (get_default topic "research_papers")) = false ->
      exists archive,
        value (download_zip papers topic w)
        = ZipAttachment archive
            (sanitize (get_default topic "research_papers") ++ "_papers.zip")).
Proof.
  split; [intros ->; reflexivity|]. split; intros Hne Hnl;
    destruct (download_zip_run papers topic w Hne) as (st & w1 & t1 & _ & ->);
    rewrite Hnl; [reflexivity|]. eexists. reflexivity.
Qed.

Lemma zip_loop_view papers :
  forall i st w,
    zip_loop i (List.map archive_view papers) st w = zip_loop i papers st w.
Proof.
  induction papers as [|p papers IH]; intros i st w; [reflexivity|].
  cbn [List.map zip_loop]. unfold bind.
  change (zip_step i (archive_view p) st w) with (zip_step i p st w).
  destruct (zip_step i p st w) as [[st1 w1] t1]. now rewrite IH.
Qed.

(** X15: [download_zip] reads the title, the authors, the year, the abstract
    and the download URL of a record and nothing else: the flag, the raw
    PDF link and the source link play no part (nothing is resolved again). *)
Theorem download_zip_ignores_links (papers : list paper) (topic : option string)
    (w : World) :
  download_zip (List.map archive_view papers) topic w
  = download_zip papers topic w.
Proof.
  destruct papers as [|p papers]; [reflexivity|].
  rewrite (download_zip_nonempty (p :: papers) topic w) by discriminate.
  rewrite (download_zip_nonempty (List.map archive_view (p :: papers)) topic w)
    by discriminate.
  unfold bind. rewrite zip_loop_view.
  destruct (zip_loop 0 (p :: papers) zip_init w) as [[st w1] t1].
  unfold metadata_text. now rewrite List.length_map.
Qed.

(** X16: Scraping, then archiving: for the records that [scrape_scholar]
    returns, [download_zip] asks exactly for the download URLs of the
    records whose flag is true, in order. *)
Theorem scraped_flag_drives_download
    (topic : string) (n : Z) (w : World)
    (topic' : option string) (w2 : World) :
  let papers := value (scrape_scholar topic n w) in
  gets (trace (download_zip papers topic' w2))
  = List.map (fun u => (u, 30))
      (flat_map (fun p => if flagged p
                          then [get_default (download_url p) EmptyString] else [])
         papers).
Proof.
  cbv zeta.
  pose proof (scrape_scholar_extracted topic n w) as Hall.
  set (papers := value (scrape_scholar topic n w)) in *.
  assert (Hw : wanted_urls papers
               = flat_map (fun p => if flagged p
                                    then [get_default (download_url p) EmptyString]
                                    else []) papers).
  { unfold wanted_urls. clear - Hall.
    induction Hall as [|p papers [item ->] Hall IH]; [reflexivity|].
    cbn [flat_map]. rewrite IH. f_equal.
    unfold flagged. rewrite extract_paper_has_pdf.
    destruct (download_url (extract_paper item)) as [u|] eqn:Eu; [|reflexivity].
    cbn [is_some truthy].
    destruct u; [|reflexivity].
    now apply extract_paper_download_url in Eu. }
  rewrite <- Hw. clear Hw Hall.
  destruct papers as [|p papers]; [reflexivity|].
  destruct (download_zip_run (p :: papers) topic' w2) as (st & w1 & t1 & Hl & ->);
    [discriminate|].
  pose proof (proj1 (zip_loop_observed (p :: papers) 0 zip_init w2)) as Hg.
  rewrite Hl in Hg. exact Hg.
Qed.

End ZipMore.

Lemma download_zip_delays_witness :
  sleeps (trace (@download_zip file_host three_records (Some newline_topic) tt))
  = [1]
  /\ value (@download_zip file_host three_records (Some newline_topic) tt)
     = InternalServerError.
Proof.
  destruct (@download_zip_delays file_host three_records (Some newline_topic) tt)
    as (k & Hs & _ & _).
  split; [|reflexivity]. rewrite Hs.
  apply (f_equal (@List.length Z)) in Hs. rewrite repeat_length in Hs.
  rewrite <- Hs. reflexivity.
Defined.

Lemma download_zip_one_report_witness :
  exists archive name report,
    value (@download_zip file_host three_records None tt)
    = ZipAttachment archive name
    /\ List.last archive (EmptyString, ZText EmptyString)
       = ("metadata_report.txt", ZText report)
    /\ Forall pdf_named (removelast archive)
    /\ List.length (List.filter (entry_named "metadata_report.txt") archive)
       = 1%nat.
Proof.
  apply (@download_zip_one_report file_host three_records None tt).
  - discriminate.
  - reflexivity.
  - reflexivity.
Defined.

(** A title that ends its name on a NUL character takes the name of the
    report: the archive then has two entries of that name. *)
Example download_zip_two_reports :
  exists report,
    value (@download_zip file_host
             [record ("metadata_report.txt" ++ String (ascii_of_nat 0) EmptyString)
                (Some "http://h/a.pdf")]
             None tt)
    = ZipAttachment [("metadata_report.txt", ZBytes pdf_bytes);
                     ("metadata_report.txt", ZText report)]
        "research_papers_papers.zip".
Proof. eexists. reflexivity. Qed.

Lemma download_zip_outcomes_witness :
  @download_zip file_host [] (Some "graphs") tt
  = (JsonError 400 "No papers provided", tt, [])
  /\ value (@download_zip file_host three_records (Some newline_topic) tt)
     = InternalServerError
  /\ exists archive,
       value (@download_zip file_host three_records (Some "graphs") tt)
       = ZipAttachment archive "graphs_papers.zip".
Proof.
  split; [|split].
  - apply (proj1 (@download_zip_outcomes file_host [] (Some "graphs") tt)).
    reflexivity.
  - apply (proj1 (proj2 (@download_zip_outcomes file_host three_records
                           (Some newline_topic) tt)));
      [discriminate|reflexivity].
  - apply (proj2 (proj2 (@download_zip_outcomes file_host three_records
                           (Some "graphs") tt)));
      [discriminate|reflexivity].
Defined.
